(** * EditorDiffViewer: scroll and navigation logic of the post-revision diff viewer

    A shallow embedding of the [EditorDiffViewer] React component and the
    properties of its change locator, viewport tracker and navigation
    controller.

    Conventions of the embedding.
    - A JavaScript number read from the DOM or kept in the component state is
      an exact rational ([Q]); the geometry handled here consists of layout
      integers and their halves.  The one way the component produces a
      non-number is [undefined - x], so arithmetic results live in [number],
      which adds [NaN].  Rationals are compared with [==]; [1 # 2] and
      [2 # 4] are the same JavaScript number.
    - [null] and [undefined] component references are both [None]: property
      access throws on either and lodash's [get] falls back on either.
    - A method of the class is a function from the instance to an [outcome]:
      the updated instance with the calls it made to the outside (DOM writes,
      listener registration, the animated scroll helper, analytics), or the
      exception it raised. *)

From Stdlib Require Import QArith Qminmax ZArith List String Bool Lia Lqa Sorted.
Import ListNotations.

Set Warnings "-register-all".

Open Scope Q_scope.

(** ** JavaScript numbers *)

Module JS.

Inductive number :=
| NaN
| Fin (q : Q).

(** [ToNumber] on a value that is either [undefined] or a number. *)
Definition to_number (v : option Q) : number :=
  match v with
  | Some q => Fin q
  | None => NaN
  end.

(** [a - b]. *)
Definition sub (a b : number) : number :=
  match a, b with
  | Fin x, Fin y => Fin (x - y)
  | _, _ => NaN
  end.

(** [x < y] and [x > y] on numbers that are not [NaN]. *)
Definition ltb (x y : Q) : bool :=
  (Qnum x * QDen y <? Qnum y * QDen x)%Z.

Definition gtb (x y : Q) : bool := ltb y x.

(** [Math.max( a, b )]: [NaN] as soon as one argument is. *)
Definition Math_max (a b : number) : number :=
  match a, b with
  | Fin x, Fin y => Fin (if ltb x y then y else x)
  | _, _ => NaN
  end.

(** Truthiness of a number: [0] is falsy. *)
Definition truthy (q : Q) : bool := negb (Qeq_bool q 0).

(** [v || d] where [v] is [undefined] or a number. *)
Definition or_else (v : option Q) (d : Q) : Q :=
  match v with
  | Some q => if truthy q then q else d
  | None => d
  end.

(** lodash [get( object, key, defaultValue )] for a key read off an object
    that may itself be absent: the default replaces an [undefined] result. *)
Definition get {A : Type} (object : option A) (key : A -> option Q) (defaultValue : Q) : Q :=
  match object with
  | Some o =>
      match key o with
      | Some q => q
      | None => defaultValue
      end
  | None => defaultValue
  end.

(** lodash [first] and [last]: [undefined] on an empty array. *)
Definition first (l : list Q) : option Q := nth_error l 0.

Fixpoint last (l : list Q) : option Q :=
  match l with
  | [] => None
  | [x] => Some x
  | _ :: t => last t
  end.

End JS.

(** ** The DOM as the component reads it *)

Module DOM.

(** An element: its class list, the geometry properties the component reads
    (absent on nodes that do not carry them) and its child elements. *)
Inductive element :=
  Element (classList : list string)
          (offsetTop offsetHeight scrollTop : option Q)
          (children : list element).

Definition classList (e : element) : list string :=
  let 'Element c _ _ _ _ := e in c.
Definition offsetTop (e : element) : option Q :=
  let 'Element _ t _ _ _ := e in t.
Definition offsetHeight (e : element) : option Q :=
  let 'Element _ _ h _ _ := e in h.
Definition scrollTop (e : element) : option Q :=
  let 'Element _ _ _ s _ := e in s.
Definition children (e : element) : list element :=
  let 'Element _ _ _ _ k := e in k.

(** The element followed by its descendants, in document order. *)
Fixpoint subtree (e : element) : list element :=
  e :: flat_map subtree (children e).

Definition descendants (e : element) : list element :=
  flat_map subtree (children e).

Definition has_class (c : string) (e : element) : bool :=
  existsb (String.eqb c) (classList e).

(** A selector list of class selectors, ['.a, .b'], is the list of its
    class names; an element matches when it carries one of them. *)
Definition matches (selectors : list string) (e : element) : bool :=
  existsb (fun c => has_class c e) selectors.

(** [root.querySelectorAll( selectors )]: the matching descendants of
    [root], in document order. *)
Definition querySelectorAll (selectors : list string) (root : element) : list element :=
  filter (matches selectors) (descendants root).

End DOM.

(** ** Component data *)

(** [selectedRevisionId] is an optional number prop; [lastScolledRevisionId]
    starts as [null].  [===] on these values is structural equality. *)
Inductive revision_id :=
| Undefined
| Null
| Id (n : Z).

Definition revision_id_eqb (a b : revision_id) : bool :=
  match a, b with
  | Undefined, Undefined => true
  | Null, Null => true
  | Id n, Id m => (n =? m)%Z
  | _, _ => false
  end.

(** Truthiness: [undefined], [null] and [0] are falsy. *)
Definition revision_id_truthy (r : revision_id) : bool :=
  match r with
  | Id n => negb (n =? 0)%Z
  | _ => false
  end.

(** The [diff] prop is opaque here; only the presence of its two operation
    lists is looked at ([has( diff, 'post_content' )], [has( diff, 'post_title' )]). *)
Record Diff := {
  has_post_content : bool;
  has_post_title : bool;
}.

Record Props := {
  selectedRevisionId : revision_id;
  diff : Diff;
}.

Record State := {
  changeOffsets : list Q;
  scrollTop : Q;
  viewportHeight : Q;
}.

(** The object handed to [setState]: the fields it carries replace those of
    the state, the others are kept. *)
Record PartialState := {
  set_changeOffsets : option (list Q);
  set_scrollTop : option Q;
  set_viewportHeight : option Q;
}.

Definition merge (s : State) (p : PartialState) : State :=
  {| changeOffsets := match set_changeOffsets p with Some l => l | None => changeOffsets s end;
     scrollTop := match set_scrollTop p with Some q => q | None => scrollTop s end;
     viewportHeight := match set_viewportHeight p with Some q => q | None => viewportHeight s end |}.

(** The two values passed as [setState] callback: [null]
    ([partial( this.recomputeChanges, null )] and the one-argument calls) and
    the arrow function of [tryScrollingToFirstChangeOrTop]. *)
Inductive Callback :=
| NoCallback
| CenterOnFirstChangeOrTop.

Record Update := {
  partialState : PartialState;
  callback : Callback;
}.

(** The instance: props and state, the instance fields the class assigns
    ([node], [lastScolledRevisionId], [changesAboveViewport],
    [changesBelowViewport]) and the updates [setState] has queued for React.
    [node] holds the live container element: what is stored is the element
    as the DOM currently has it. *)
Record Instance := {
  props : Props;
  state : State;
  node : option DOM.element;
  lastScolledRevisionId : revision_id;
  changesAboveViewport : list Q;
  changesBelowViewport : list Q;
  updateQueue : list Update;
}.

Definition with_props (p : Props) (this : Instance) : Instance :=
  {| props := p; state := state this; node := node this;
     lastScolledRevisionId := lastScolledRevisionId this;
     changesAboveViewport := changesAboveViewport this;
     changesBelowViewport := changesBelowViewport this;
     updateQueue := updateQueue this |}.

Definition with_state (s : State) (this : Instance) : Instance :=
  {| props := props this; state := s; node := node this;
     lastScolledRevisionId := lastScolledRevisionId this;
     changesAboveViewport := changesAboveViewport this;
     changesBelowViewport := changesBelowViewport this;
     updateQueue := updateQueue this |}.

Definition with_node (n : option DOM.element) (this : Instance) : Instance :=
  {| props := props this; state := state this; node := n;
     lastScolledRevisionId := lastScolledRevisionId this;
     changesAboveViewport := changesAboveViewport this;
     changesBelowViewport := changesBelowViewport this;
     updateQueue := updateQueue this |}.

Definition with_lastScolledRevisionId (r : revision_id) (this : Instance) : Instance :=
  {| props := props this; state := state this; node := node this;
     lastScolledRevisionId := r;
     changesAboveViewport := changesAboveViewport this;
     changesBelowViewport := changesBelowViewport this;
     updateQueue := updateQueue this |}.

Definition with_changes (above below : list Q) (this : Instance) : Instance :=
  {| props := props this; state := state this; node := node this;
     lastScolledRevisionId := lastScolledRevisionId this;
     changesAboveViewport := above;
     changesBelowViewport := below;
     updateQueue := updateQueue this |}.

Definition with_updateQueue (q : list Update) (this : Instance) : Instance :=
  {| props := props this; state := state this; node := node this;
     lastScolledRevisionId := lastScolledRevisionId this;
     changesAboveViewport := changesAboveViewport this;
     changesBelowViewport := changesBelowViewport this;
     updateQueue := q |}.

(** The instance as the class field initialisers leave it.  [node],
    [changesAboveViewport] and [changesBelowViewport] are unset until the ref
    callback and the first [render]; lodash's [last] and [first] give
    [undefined] on an unset value as on an empty array. *)
Definition new_instance (p : Props) : Instance :=
  {| props := p;
     state := {| changeOffsets := []; scrollTop := 0; viewportHeight := 0 |};
     node := None;
     lastScolledRevisionId := Null;
     changesAboveViewport := [];
     changesBelowViewport := [];
     updateQueue := [] |}.

(** ** Calls to the outside, outcomes, methods *)

Inductive effect :=
| SetScrollTop (y : JS.number)
    (* this.node.scrollTop = y *)
| ScrollTo (x y : JS.number)
    (* scrollTo( { container: this.node, x, y } ), the animated helper *)
| NodeAddScrollListener (n : DOM.element)
    (* n.addEventListener( 'scroll', this.throttledScrollHandler ) *)
| NodeRemoveScrollListener (n : DOM.element)
| WindowAddResizeListener
    (* window.addEventListener( 'resize', this.debouncedRecomputeChanges ) *)
| WindowRemoveResizeListener
| RecordTracksEvent (name direction : string).

Inductive error :=
| TypeError.

(** How a call ends: normally, with the instance and the calls made to the
    outside in order; by an exception; or, for React's update loop only, cut
    short by the bound on its rounds. *)
Inductive outcome :=
| Done (this : Instance) (log : list effect)
| Threw (e : error)
| OutOfFuel.

Definition method := Instance -> outcome.

Definition ret : method := fun this => Done this [].

Definition emit (e : effect) : method := fun this => Done this [e].

Definition modify (f : Instance -> Instance) : method := fun this => Done (f this) [].

Definition seq (m1 m2 : method) : method :=
  fun this =>
    match m1 this with
    | Done this1 log1 =>
        match m2 this1 with
        | Done this2 log2 => Done this2 (log1 ++ log2)
        | Threw e => Threw e
        | OutOfFuel => OutOfFuel
        end
    | Threw e => Threw e
    | OutOfFuel => OutOfFuel
    end.

Notation "m1 ;; m2" := (seq m1 m2) (at level 61, right associativity).

(** ** The methods of [EditorDiffViewer] *)

Definition getCenterOffset (n : DOM.element) : Q :=
  JS.get (Some n) DOM.offsetTop 0 + JS.get (Some n) DOM.offsetHeight 0 / 2.

(** ['.text-diff__additions, .text-diff__deletions'] *)
Definition diff_selectors : list string :=
  ["text-diff__additions"; "text-diff__deletions"]%string.

Definition scroll_hint_used : string :=
  "calypso_editor_post_revisions_scroll_hint_used"%string.

(** [this.setState( partialState, callback )]: React queues the update; the
    state is replaced and the callback run when React processes the queue
    ([React.flush] below). *)
Definition setState (p : PartialState) (cb : Callback) : method :=
  modify (fun this =>
    with_updateQueue (updateQueue this ++ [{| partialState := p; callback := cb |}]) this).

Definition centerScrollingOnOffset (offset : option Q) (animated : bool) : method :=
  fun this =>
    let nextScrollTop :=
      JS.Math_max (JS.Fin 0)
        (JS.sub (JS.to_number offset) (JS.Fin (viewportHeight (state this) / 2))) in
    if negb animated then
      match node this with
      | Some _ => Done this [SetScrollTop nextScrollTop]
      | None => Threw TypeError
      end
    else Done this [ScrollTo (JS.Fin 0) nextScrollTop].

Definition recomputeChanges (cb : Callback) : method :=
  fun this =>
    match node this with
    | None => Threw TypeError
    | Some n =>
        let diffNodes := DOM.querySelectorAll diff_selectors n in
        setState
          {| set_changeOffsets := Some (map getCenterOffset diffNodes);
             set_viewportHeight := Some (JS.get (node this) DOM.offsetHeight 0);
             set_scrollTop := Some (JS.get (node this) DOM.scrollTop 0) |}
          cb this
    end.

(** The arrow function passed by [tryScrollingToFirstChangeOrTop]. *)
Definition centerOnFirstChangeOrTop : method :=
  fun this =>
    centerScrollingOnOffset
      (Some (JS.or_else (nth_error (changeOffsets (state this)) 0) 0)) false this.

Definition run_callback (cb : Callback) : method :=
  match cb with
  | NoCallback => ret
  | CenterOnFirstChangeOrTop => centerOnFirstChangeOrTop
  end.

Definition tryScrollingToFirstChangeOrTop : method :=
  fun this =>
    if negb (revision_id_truthy (selectedRevisionId (props this)))
       || revision_id_eqb (selectedRevisionId (props this)) (lastScolledRevisionId this)
    then Done this []
    else
      (modify (with_lastScolledRevisionId (selectedRevisionId (props this))) ;;
       recomputeChanges CenterOnFirstChangeOrTop) this.

Section Lifecycle.

(** [typeof window !== 'undefined'] *)
Variable window_defined : bool.

Definition componentDidMount : method :=
  tryScrollingToFirstChangeOrTop ;;
  (if window_defined then emit WindowAddResizeListener else ret).

Definition componentWillUnmount : method :=
  if window_defined then emit WindowRemoveResizeListener else ret.

End Lifecycle.

Definition componentDidUpdate : method :=
  tryScrollingToFirstChangeOrTop.

Definition componentWillReceiveProps (nextProps : Props) : method :=
  fun this =>
    if negb (revision_id_eqb (selectedRevisionId nextProps) (selectedRevisionId (props this)))
    then
      setState {| set_changeOffsets := Some [];
                  set_scrollTop := None;
                  set_viewportHeight := None |} NoCallback this
    else Done this [].

Record ScrollEvent := {
  target : option DOM.element;
}.

Definition handleScroll (e : ScrollEvent) : method :=
  setState {| set_changeOffsets := None;
              set_scrollTop := Some (JS.get (target e) DOM.scrollTop 0);
              set_viewportHeight := None |} NoCallback.

Definition handleScrollableRef (n : option DOM.element) : method :=
  fun this =>
    match n with
    | Some el =>
        (modify (with_node (Some el)) ;; emit (NodeAddScrollListener el)) this
    | None =>
        match node this with
        | Some held =>
            (emit (NodeRemoveScrollListener held) ;; modify (with_node None)) this
        | None => Threw TypeError
        end
    end.

Definition scrollAbove : method :=
  fun this =>
    (centerScrollingOnOffset (JS.last (changesAboveViewport this)) true ;;
     emit (RecordTracksEvent scroll_hint_used "above")) this.

Definition scrollBelow : method :=
  fun this =>
    (centerScrollingOnOffset (JS.first (changesBelowViewport this)) true ;;
     emit (RecordTracksEvent scroll_hint_used "below")) this.

(** What [render] returns, as far as this component decides it: the
    [is-loading] class and, for each hint, whether it is rendered and with
    which count.  A rendered hint carries the click handler ([scrollAbove],
    [scrollBelow]); one that is not rendered cannot be clicked. *)
Record View := {
  is_loading : bool;
  hint_above : option nat;
  hint_below : option nat;
}.

Definition render (this : Instance) : Instance * View :=
  let bottomBoundary := scrollTop (state this) + viewportHeight (state this) in
  let above := filter (fun offset => JS.ltb offset (scrollTop (state this)))
                      (changeOffsets (state this)) in
  let below := filter (fun offset => JS.gtb offset bottomBoundary)
                      (changeOffsets (state this)) in
  let showHints := JS.gtb (viewportHeight (state this)) 470 in
  let countAbove := List.length above in
  let countBelow := List.length below in
  (with_changes above below this,
   {| is_loading := negb (has_post_content (diff (props this)))
                    && negb (has_post_title (diff (props this)));
      hint_above := if showHints && (0 <? countAbove)%nat then Some countAbove else None;
      hint_below := if showHints && (0 <? countBelow)%nat then Some countBelow else None |}).

(** ** React's side of the component

    What React does around the methods: it processes the queued state
    updates, calls [render], then [componentDidUpdate], then the callbacks of
    the updates it applied, and starts over while updates are queued.  A
    [PureComponent] skips the re-render when props and state are shallowly
    equal to the previous ones; re-rendering then gives the same instance
    fields, so the model always re-renders. *)

Module React.

Definition processUpdateQueue : method :=
  modify (fun this =>
    with_updateQueue []
      (with_state
         (fold_left (fun s u => merge s (partialState u)) (updateQueue this) (state this))
         this)).

Definition callRender : method :=
  modify (fun this => fst (render this)).

Fixpoint run_callbacks (q : list Update) : method :=
  match q with
  | [] => ret
  | u :: q' => run_callback (callback u) ;; run_callbacks q'
  end.

(** The browser or React's commit changes the container the component holds
    (new diff markup, new layout, new scroll position). *)
Definition domChange (dom : DOM.element) : method :=
  modify (fun this =>
    match node this with
    | Some _ => with_node (Some dom) this
    | None => this
    end).

(** One update: state from the queue, [render], the DOM work [dom],
    [componentDidUpdate], the callbacks, then [next]. *)
Definition commitWork (dom next : method) : method :=
  fun this =>
    let q := updateQueue this in
    (processUpdateQueue ;; callRender ;; dom ;;
     componentDidUpdate ;; run_callbacks q ;; next) this.

(** Update until no update is queued. *)
Fixpoint flush (fuel : nat) (this : Instance) : outcome :=
  match updateQueue this with
  | [] => Done this []
  | _ :: _ =>
      match fuel with
      | O => OutOfFuel
      | S fuel' => commitWork ret (flush fuel') this
      end
  end.

Section Drivers.

Variable window_defined : bool.
Variable fuel : nat.

(** Mounting: first [render], the ref callback with the container, then
    [componentDidMount]. *)
Definition mount (container : DOM.element) : method :=
  callRender ;; handleScrollableRef (Some container) ;;
  componentDidMount window_defined ;; flush fuel.

(** Unmounting: [componentWillUnmount], then the ref callback with [null]. *)
Definition unmount : method :=
  componentWillUnmount window_defined ;; handleScrollableRef None.

(** New props from the parent; [dom] is the container once the children
    have rendered them. *)
Definition receiveProps (nextProps : Props) (dom : DOM.element) : method :=
  componentWillReceiveProps nextProps ;; modify (with_props nextProps) ;;
  commitWork (domChange dom) (flush fuel).

(** A click on a hint reaches its handler only when [render] put the hint
    on the page. *)
Definition clickHintAbove : method :=
  fun this =>
    match hint_above (snd (render this)) with
    | Some _ => scrollAbove this
    | None => Done this []
    end.

Definition clickHintBelow : method :=
  fun this =>
    match hint_below (snd (render this)) with
    | Some _ => scrollBelow this
    | None => Done this []
    end.

(** What can happen to a mounted component. *)
Inductive event :=
| Scroll (e : ScrollEvent)
    (* the throttled scroll handler fires *)
| Resize
    (* the debounced [recomputeChanges( null )] fires *)
| ClickAbove
| ClickBelow
| ReceiveProps (nextProps : Props) (dom : DOM.element)
| DomChange (dom : DOM.element).

Definition dispatch (ev : event) : method :=
  match ev with
  | Scroll e => handleScroll e ;; flush fuel
  | Resize => recomputeChanges NoCallback ;; flush fuel
  | ClickAbove => clickHintAbove ;; flush fuel
  | ClickBelow => clickHintBelow ;; flush fuel
  | ReceiveProps nextProps dom => receiveProps nextProps dom
  | DomChange dom => domChange dom
  end.

Fixpoint run (evs : list event) : method :=
  match evs with
  | [] => ret
  | ev :: evs' => dispatch ev ;; run evs'
  end.

End Drivers.

End React.

(** ** Sample data *)

Definition region (cls : string) (top height : Q) : DOM.element :=
  DOM.Element [cls] (Some top) (Some height) None [].

(** A container 600 high, scrolled to 0, with a title and a content block
    holding an addition and a deletion. *)
Definition sample_container : DOM.element :=
  DOM.Element ["editor-diff-viewer__scrollable"%string] (Some 0) (Some 600) (Some 0)
    [ DOM.Element ["editor-diff-viewer__title"%string] (Some 0) (Some 40) None [];
      DOM.Element ["editor-diff-viewer__content"%string] (Some 40) (Some 2000) None
        [ region "text-diff__additions" 700 20;
          DOM.Element ["text-diff__unchanged"%string] (Some 720) (Some 20) None [];
          region "text-diff__deletions" 1500 21 ] ].

Definition sample_props (r : revision_id) : Props :=
  {| selectedRevisionId := r;
     diff := {| has_post_content := true; has_post_title := true |} |}.

(** * SiteNotice: the notices of the current site

    [render] and the notice methods of [SiteNotice]
    (client/my-sites/current-site/notice.jsx).  A method returns the element
    it builds or [null], or throws on a property read off a missing object.
    What [url.parse] finds as hostname and the path [domainManagementList]
    builds are taken as given. *)

Module SiteNotice.

Record Plan := {
  product_slug : string;
  product_name_short : string;
}.

Record Options := {
  is_redirect : bool;
}.

Record Site := {
  ID : Z;
  URL : string;
  domain : string;
  slug : string;
  options : option Options;
  plan : option Plan;
}.

Record Props := {
  site : option Site;
  isDomainOnly : bool;
  isEligibleForFreeToPaidUpsell : bool;
  isEligibleForSpringDiscount : bool;
  hasDomainCredit : bool;
  canManageOptions : bool;
  pausedJetpackPluginsSetup : bool;
}.

(** A text handed to a child: through [translate], with its arguments and
    the [href] of its link components, or a literal. *)
Inductive text :=
| Translate (original : string) (args : list (string * option string))
            (components : list (string * string))
| Literal (s : string).

Record NoticeAction := {
  href : string;
  onClick : option string;        (* the prop passed as handler *)
  label : text;
  tracked : option (string * string);   (* TrackComponentView: event, cta_name *)
}.

Inductive element :=
| QueryActivePromotions
| DomainToPaidPlanNotice
| QuerySitePlans (siteId : Z)
| SidebarBanner (ctaName : string) (ctaText : text) (href icon : string) (text_ : text)
| Notice (icon : string) (status : option string) (isCompact : bool)
         (showDismiss : option bool) (text_ : text) (action : NoticeAction).

Inductive result (A : Type) :=
| Returned (a : A)
| Thrown (e : error).

Arguments Returned {A} a.
Arguments Thrown {A} e.

Definition bind {A B : Type} (r : result A) (k : A -> result B) : result B :=
  match r with
  | Returned a => k a
  | Thrown e => Thrown e
  end.

Section Notices.

(** [url.parse( u ).hostname] *)
Variable hostname_of : string -> option string.
(** [domainManagementList( domain )] *)
Variable domainManagementList : string -> string.

Definition getSiteRedirectNotice (p : Props) (site_ : option Site) : option element :=
  match site_ with
  | None => None
  | Some s =>
      if isDomainOnly p then None
      else
        if negb (match options s with Some o => is_redirect o | None => false end)
        then None
        else
          let hostname := hostname_of (URL s) in
          Some (Notice "info-outline" None true (Some false)
                  (Translate "Redirects to {{a}}%(url)s{{/a}}"
                             [("url"%string, hostname)] [("a"%string, URL s)])
                  {| href := domainManagementList (domain s);
                     onClick := None;
                     label := Translate "Edit" [] [];
                     tracked := None |})
  end.

Definition domainCreditNotice (p : Props) : result (option element) :=
  if negb (hasDomainCredit p) || negb (canManageOptions p) then Returned None
  else
    match site p with
    | None => Thrown TypeError
    | Some s =>
        Returned
          (Some (Notice "info-outline" (Some "is-success"%string) true None
                   (Translate "Free domain available" [] [])
                   {| href := "/domains/add/" ++ slug s;
                      onClick := Some "clickClaimDomainNotice"%string;
                      label := Translate "Claim" [] [];
                      tracked := Some ("calypso_domain_credit_reminder_impression"%string,
                                       "current_site_domain_notice"%string) |}))
    end.

Definition freeToPaidPlanNotice (p : Props) : result (option element) :=
  if negb (isEligibleForFreeToPaidUpsell p) then Returned None
  else
    match site p with
    | None => Thrown TypeError
    | Some s =>
        Returned
          (Some (SidebarBanner "free-to-paid-sidebar" (Translate "Upgrade" [] [])
                   ("/plans/" ++ slug s) "info-outline"
                   (Translate "Free domain with a plan" [] [])))
    end.

Definition freeToPaidPlan30PercentOffNotice (p : Props) : result (option element) :=
  if negb (isEligibleForFreeToPaidUpsell p) then Returned None
  else
    match site p with
    | None => Thrown TypeError
    | Some s =>
        Returned
          (Some (SidebarBanner "free-to-paid-sidebar" (Literal "Upgrade")
                   ("/plans/" ++ slug s ++ "?sale") "info-outline"
                   (Literal "30% Off All Plans")))
    end.

Definition jetpackPluginsSetupNotice (p : Props) : result (option element) :=
  if negb (pausedJetpackPluginsSetup p) then Returned None
  else
    match site p with
    | None => Thrown TypeError
    | Some s =>
        match plan s with
        | None => Thrown TypeError
        | Some pl =>
            if String.eqb (product_slug pl) "jetpack_free" then Returned None
            else
              Returned
                (Some (Notice "plugins" (Some "is-info"%string) true None
                         (Translate "Your %(plan)s plan needs setting up!"
                                    [("plan"%string, Some (product_name_short pl))] [])
                         {| href := "/plugins/setup/" ++ slug s;
                            onClick := None;
                            label := Translate "Finish" [] [];
                            tracked := None |}))
        end
    end.

(** The children of the [site__notices] container, in order; a [null]
    child is [None]. *)
Definition render (p : Props) : result (list (option element)) :=
  match site p with
  | None => Returned []
  | Some s =>
      bind (if isEligibleForSpringDiscount p
            then freeToPaidPlan30PercentOffNotice p
            else freeToPaidPlanNotice p) (fun upsell =>
      let redirect := getSiteRedirectNotice p (Some s) in
      bind (domainCreditNotice p) (fun credit =>
      bind (jetpackPluginsSetupNotice p) (fun jetpack =>
      Returned [Some QueryActivePromotions; upsell; Some DomainToPaidPlanNotice;
                redirect; Some (QuerySitePlans (ID s)); credit; jetpack])))
  end.

End Notices.

End SiteNotice.

(** * Courses: the help courses page

    [mapStateToProps], [fetchCoursesIfNeeded] and [render] of [Courses]
    (the second module of client/my-sites/current-site/notice.jsx).  The
    selectors, [planMatches] and the plan constants are taken as given. *)

Module Courses.

Record Purchase := {
  productSlug : string;
}.

Record PlanQuery := {
  type : string;
  group : string;
}.

Section WithState.

Variable state : Type.
Variable Course : Type.
Variable getCurrentUserId : state -> option Z.
Variable getUserPurchases : state -> option Z -> option (list Purchase).
Variable getHelpCourses : state -> option (list Course).
Variable isFetchingUserPurchases : state -> bool.
Variable hasLoadedUserPurchasesFromServer : state -> bool.
Variable planMatches : string -> PlanQuery -> bool.
Variable TYPE_BUSINESS GROUP_WPCOM : string.

Record Props := {
  isLoading : bool;
  isBusinessPlanUser : option bool;   (* [None]: the missing purchases, passed on *)
  userId : option Z;
  courses : option (list Course);
}.

Definition isWPCOMBusinessPlan (purchase : Purchase) : bool :=
  planMatches (productSlug purchase) {| type := TYPE_BUSINESS; group := GROUP_WPCOM |}.

(** [!! value] on what lodash [find] returns. *)
Definition found {A : Type} (v : option A) : bool :=
  match v with
  | Some _ => true
  | None => false
  end.

Definition mapStateToProps (st : state) : Props :=
  let userId := getCurrentUserId st in
  let purchases := getUserPurchases st userId in
  let isBusinessPlanUser :=
    match purchases with
    | Some l => Some (found (find isWPCOMBusinessPlan l))
    | None => None
    end in
  let courses := getHelpCourses st in
  let isLoading :=
    isFetchingUserPurchases st
    || negb (found courses)
    || negb (hasLoadedUserPurchasesFromServer st) in
  {| isLoading := isLoading;
     isBusinessPlanUser := isBusinessPlanUser;
     userId := userId;
     courses := courses |}.

(** The actions [fetchCoursesIfNeeded] has dispatched: [fetchCourses] or
    nothing. *)
Inductive action :=
| FetchCourses.

Definition fetchCoursesIfNeeded (p : Props) : list action :=
  match courses p with
  | Some _ => []
  | None => [FetchCourses]
  end.

Definition componentWillMount (p : Props) : list action :=
  fetchCoursesIfNeeded p.

(** The child of [Main] that depends on the props. *)
Inductive body :=
| CourseListPlaceholder
| CourseList (courses : option (list Course)) (isBusinessPlanUser : option bool).

Record View := {
  list_or_placeholder : body;
  queryUserPurchases : option Z;   (* <QueryUserPurchases userId /> *)
}.

Definition render (p : Props) : View :=
  {| list_or_placeholder :=
       if isLoading p then CourseListPlaceholder
       else CourseList (courses p) (isBusinessPlanUser p);
     queryUserPurchases := userId p |}.

End WithState.

End Courses.

(** * Vocabulary of the properties *)

(** The target as the specification writes it. *)
Definition spec_center_target (offset viewportHeight : Q) : Q :=
  Qmax 0 (offset - viewportHeight / 2).

Definition viewport (h : Q) : Instance :=
  with_state {| changeOffsets := []; scrollTop := 0; viewportHeight := h |}
    (new_instance (sample_props (Id 1))).

(** A viewport of height [h] scrolled to 100, with a change above it and
    one far below. *)
Definition scrolled_viewport (h : Q) : Instance :=
  with_state {| changeOffsets := [10; 2000]; scrollTop := 100; viewportHeight := h |}
    (new_instance (sample_props (Id 1))).

Definition window_100_300 : Instance :=
  with_state {| changeOffsets := [10; 50; 100; 120; 400; 900];
                scrollTop := 100; viewportHeight := 300 |}
    (new_instance (sample_props (Id 1))).

(** A change region: an element tagged as an addition or as a deletion. *)
Definition is_change_region (e : DOM.element) : Prop :=
  In "text-diff__additions"%string (DOM.classList e)
  \/ In "text-diff__deletions"%string (DOM.classList e).

Definition is_change_region_dec (e : DOM.element) :
  {is_change_region e} + {~ is_change_region e}.
Proof.
  unfold is_change_region.
  destruct (in_dec string_dec "text-diff__additions"%string (DOM.classList e));
    destruct (in_dec string_dec "text-diff__deletions"%string (DOM.classList e));
    tauto.
Defined.

(** The number of change regions in the tree below and including [e],
    counted by recursion on the tree. *)
Fixpoint count_change_regions (e : DOM.element) : nat :=
  (if is_change_region_dec e then 1 else 0)
  + list_sum (map count_change_regions (DOM.children e)).

(** The number of change regions inside a container. *)
Definition change_regions_in (container : DOM.element) : nat :=
  list_sum (map count_change_regions (DOM.children container)).

(** A geometry property that is missing counts as 0. *)
Definition or_zero (v : option Q) : Q :=
  match v with
  | Some q => q
  | None => 0
  end.

(** The update [recomputeChanges] queues for a container. *)
Definition recompute_update (container : DOM.element) (cb : Callback) : Update :=
  {| partialState :=
       {| set_changeOffsets :=
            Some (map getCenterOffset (DOM.querySelectorAll diff_selectors container));
          set_viewportHeight := Some (JS.get (Some container) DOM.offsetHeight 0);
          set_scrollTop := Some (JS.get (Some container) DOM.scrollTop 0) |};
     callback := cb |}.

Definition enqueue (u : Update) (this : Instance) : Instance :=
  with_updateQueue (updateQueue this ++ [u]) this.

(** The update [handleScroll] queues for an event. *)
Definition scroll_update (e : ScrollEvent) : Update :=
  {| partialState := {| set_changeOffsets := None;
                        set_scrollTop := Some (JS.get (target e) DOM.scrollTop 0);
                        set_viewportHeight := None |};
     callback := NoCallback |}.

(** The auto-scroll for the selected revision has been done or is not due:
    [tryScrollingToFirstChangeOrTop] returns at its guard. *)
Definition settled (this : Instance) : Prop :=
  revision_id_truthy (selectedRevisionId (props this)) = false
  \/ selectedRevisionId (props this) = lastScolledRevisionId this.

(** The instance once React has merged the updates [q] into the state and
    called [render]. *)
Definition applied (q : list Update) (this : Instance) : Instance :=
  fst (render
         (with_updateQueue []
            (with_state (fold_left (fun s u => merge s (partialState u)) q (state this))
                        this))).

Definition no_callbacks (q : list Update) : Prop :=
  Forall (fun u => callback u = NoCallback) q.

Fixpoint ref_calls (calls : list (option DOM.element)) : method :=
  match calls with
  | [] => ret
  | n :: calls' => handleScrollableRef n ;; ref_calls calls'
  end.

(** The ref callback as React calls it over successive mounts of the
    containers [cs]: with the container, then with [null]. *)
Definition mount_unmount_refs (cs : list DOM.element) : list (option DOM.element) :=
  flat_map (fun c => [Some c; None]) cs.

Definition listener_log (cs : list DOM.element) : list effect :=
  flat_map (fun c => [NodeAddScrollListener c; NodeRemoveScrollListener c]) cs.

(** The targets of the instant scrolls in a log. *)
Definition instant_scrolls (log : list effect) : list JS.number :=
  flat_map (fun e => match e with SetScrollTop y => [y] | _ => [] end) log.

(** The offsets and the viewport height read off a container. *)
Definition located (container : DOM.element) : list Q :=
  map getCenterOffset (DOM.querySelectorAll diff_selectors container).

Definition measured_height (container : DOM.element) : Q :=
  JS.get (Some container) DOM.offsetHeight 0.

(** The target the callback of the auto-scroll computes once the state holds
    what [recomputeChanges] read off [container]. *)
Definition auto_scroll_target (container : DOM.element) : JS.number :=
  JS.Math_max (JS.Fin 0)
    (JS.sub (JS.to_number (Some (JS.or_else (nth_error (located container) 0) 0)))
            (JS.Fin (measured_height container / 2))).

(** A mounted component between two events: revision [r] selected, [l] the
    revision last scrolled to, no auto-scroll due, a container held, no
    update queued. *)
Definition at_rest (r l : revision_id) (this : Instance) : Prop :=
  selectedRevisionId (props this) = r
  /\ lastScolledRevisionId this = l
  /\ (revision_id_truthy r = false \/ r = l)
  /\ (exists container, node this = Some container)
  /\ updateQueue this = [].

(** The events under which the selected revision stays [r]. *)
Definition keeps_revision (r : revision_id) (ev : React.event) : Prop :=
  match ev with
  | React.ReceiveProps nextProps _ => selectedRevisionId nextProps = r
  | _ => True
  end.

(** The DOM step of [React.domChange] as a function. *)
Definition dom_step (dom : DOM.element) (this : Instance) : Instance :=
  match node this with
  | Some _ => with_node (Some dom) this
  | None => this
  end.

(** The update [componentWillReceiveProps] queues on a revision change. *)
Definition clear_update : Update :=
  {| partialState := {| set_changeOffsets := Some [];
                        set_scrollTop := None;
                        set_viewportHeight := None |};
     callback := NoCallback |}.

Definition sample_events : list React.event :=
  [React.Scroll {| target := Some sample_container |};
   React.Resize; React.ClickBelow;
   React.ReceiveProps (sample_props (Id 7)) sample_container].

(** The instance with other change offsets in its state and other sets
    saved by [render]: what an earlier revision may have left behind. *)
Definition with_stale_offsets (offsets above below : list Q) (this : Instance) : Instance :=
  with_changes above below
    (with_state {| changeOffsets := offsets;
                   scrollTop := scrollTop (state this);
                   viewportHeight := viewportHeight (state this) |}
                this).

(** The instance [render] leaves once a revision change has been taken in:
    new props, the queue merged into the state. *)
Definition rendered_after_change (nextProps : Props) (this : Instance) : Instance :=
  applied (updateQueue this ++ [clear_update])
          (with_props nextProps (enqueue clear_update this)).

(** A component showing revision 7 with offsets left in its state. *)
Definition showing_7 : Instance :=
  with_lastScolledRevisionId (Id 7)
    (with_node (Some sample_container)
       (with_stale_offsets [710; 3021 # 2] [] [710; 3021 # 2]
          (new_instance (sample_props (Id 7))))).

(** ** Vocabulary of the further properties *)

(** The sets [render] saved on the instance are those of the current
    state. *)
Definition fresh (this : Instance) : Prop :=
  changesAboveViewport this
  = filter (fun offset => JS.ltb offset (scrollTop (state this)))
           (changeOffsets (state this))
  /\ changesBelowViewport this
     = filter (fun offset =>
                 JS.gtb offset (scrollTop (state this) + viewportHeight (state this)))
              (changeOffsets (state this)).

(** A method keeps a property of the instance whenever it returns. *)
Definition preserves (P : Instance -> Prop) (m : method) : Prop :=
  forall this this' log, P this -> m this = Done this' log -> P this'.

(** The guard of [tryScrollingToFirstChangeOrTop] lets revision [next]
    through when [l] is the revision last scrolled to. *)
Definition scroll_due (next l : revision_id) : bool :=
  revision_id_truthy next && negb (revision_id_eqb next l).

(** The revision last scrolled to after an event. *)
Definition last_after (l : revision_id) (ev : React.event) : revision_id :=
  match ev with
  | React.ReceiveProps nextProps _ =>
      if scroll_due (selectedRevisionId nextProps) l
      then selectedRevisionId nextProps
      else l
  | _ => l
  end.

(** The instant scroll an event is due, [l] being the revision last
    scrolled to: one on the arrival of a truthy revision other than [l],
    aimed at the container of that moment. *)
Definition due_scroll (l : revision_id) (ev : React.event) : list JS.number :=
  match ev with
  | React.ReceiveProps nextProps dom =>
      if scroll_due (selectedRevisionId nextProps) l
      then [auto_scroll_target dom]
      else []
  | _ => []
  end.

Fixpoint due_scrolls (l : revision_id) (evs : list React.event) : list JS.number :=
  match evs with
  | [] => []
  | ev :: evs' => due_scroll l ev ++ due_scrolls (last_after l ev) evs'
  end.

(** A method makes only calls to the outside that pass [ok]. *)
Definition emits_only (ok : effect -> bool) (m : method) : Prop :=
  forall this this' log, m this = Done this' log -> forallb ok log = true.


Definition is_listener_call (e : effect) : bool :=
  match e with
  | NodeAddScrollListener _ | NodeRemoveScrollListener _
  | WindowAddResizeListener | WindowRemoveResizeListener => true
  | _ => false
  end.

Definition not_listener_call (e : effect) : bool := negb (is_listener_call e).

(** The listener registrations and removals in a log, in order. *)
Definition listener_calls (log : list effect) : list effect :=
  filter is_listener_call log.

(** The offsets of the state inside the viewport, bounds included. *)
Definition changesInViewport (this : Instance) : list Q :=
  filter (fun offset =>
            negb (JS.ltb offset (scrollTop (state this)))
            && negb (JS.gtb offset (scrollTop (state this) + viewportHeight (state this))))
         (changeOffsets (state this)).

(** The state a scroll event leaves when the container reports [top]. *)
Definition scrolled_to (top : Q) (this : Instance) : Instance :=
  applied [scroll_update {| target := Some (DOM.Element [] None None (Some top) []) |}] this.

(** Props without a selected revision. *)
Definition no_revision_props : Props :=
  {| selectedRevisionId := Undefined;
     diff := {| has_post_content := false; has_post_title := false |} |}.

(** The sample container after a relayout: the same regions, further down,
    in a viewport 500 high scrolled to 40. *)
Definition relaid_container : DOM.element :=
  DOM.Element ["editor-diff-viewer__scrollable"%string] (Some 0) (Some 500) (Some 40)
    [ DOM.Element ["editor-diff-viewer__content"%string] (Some 40) (Some 2400) None
        [ region "text-diff__additions" 900 20;
          region "text-diff__deletions" 1800 20 ] ].

(** A component that holds its container with revision 7 selected, not yet
    scrolled to, and an update queued. *)
Definition pending_7 : Instance :=
  with_node (Some sample_container)
    (enqueue clear_update (new_instance (sample_props (Id 7)))).

(** The sidebar banners among the children [SiteNotice.render] returns. *)
Definition banners (children : list (option SiteNotice.element))
  : list SiteNotice.element :=
  flat_map (fun child =>
              match child with
              | Some (SiteNotice.SidebarBanner a b c d e) =>
                  [SiteNotice.SidebarBanner a b c d e]
              | _ => []
              end) children.

(** A site that redirects, on a free plan, and the props of a user who can
    be sold a plan during the spring discount. *)
Definition sample_site : SiteNotice.Site :=
  {| SiteNotice.ID := 42;
     SiteNotice.URL := "https://example.blog";
     SiteNotice.domain := "example.blog";
     SiteNotice.slug := "example.blog";
     SiteNotice.options := Some {| SiteNotice.is_redirect := true |};
     SiteNotice.plan := None |}.

Definition sample_notice_props : SiteNotice.Props :=
  {| SiteNotice.site := Some sample_site;
     SiteNotice.isDomainOnly := false;
     SiteNotice.isEligibleForFreeToPaidUpsell := true;
     SiteNotice.isEligibleForSpringDiscount := true;
     SiteNotice.hasDomainCredit := false;
     SiteNotice.canManageOptions := true;
     SiteNotice.pausedJetpackPluginsSetup := false |}.

(** * Properties *)

(** ** Numbers and lists *)

Lemma ltb_lt (x y : Q) : JS.ltb x y = true <-> x < y.
Proof. unfold JS.ltb, Qlt. apply Z.ltb_lt. Qed.

Lemma ltb_ge (x y : Q) : JS.ltb x y = false <-> y <= x.
Proof. unfold JS.ltb, Qle. rewrite Z.ltb_ge. reflexivity. Qed.

Lemma gtb_lt (x y : Q) : JS.gtb x y = true <-> y < x.
Proof. unfold JS.gtb. apply ltb_lt. Qed.

Lemma revision_id_eqb_eq (a b : revision_id) : revision_id_eqb a b = true <-> a = b.
Proof.
  destruct a, b; simpl; split; intros H; try congruence; try discriminate.
  - apply Z.eqb_eq in H. now subst.
  - inversion H. apply Z.eqb_refl.
Qed.

Lemma revision_id_eqb_refl (a : revision_id) : revision_id_eqb a a = true.
Proof. now apply revision_id_eqb_eq. Qed.

Lemma revision_id_eqb_neq (a b : revision_id) : revision_id_eqb a b = false <-> a <> b.
Proof.
  rewrite <- revision_id_eqb_eq. destruct (revision_id_eqb a b); split; congruence.
Qed.

(** ** Centering formula *)

Lemma Math_max_0_spec (x : Q) :
  exists t, JS.Math_max (JS.Fin 0) (JS.Fin x) = JS.Fin t /\ t == Qmax 0 x /\ 0 <= t.
Proof.
  simpl. destruct (JS.ltb 0 x) eqn:E.
  - apply ltb_lt in E. exists x. split; [reflexivity|]. split.
    + symmetry. apply Q.max_r. now apply Qlt_le_weak.
    + now apply Qlt_le_weak.
  - apply ltb_ge in E. exists 0. split; [reflexivity|]. split.
    + symmetry. now apply Q.max_l.
    + apply Qle_refl.
Qed.

(** C4. Centering formula: for a numeric offset, the animated path (the call
    to the scroll helper) and the instant path (the write to the container's
    [scrollTop]) both use the target [max(0, offset - viewportHeight / 2)],
    which is never negative; neither changes the instance. *)
Theorem centering_formula (this : Instance) (container : DOM.element) (offset : Q) :
  exists t,
    centerScrollingOnOffset (Some offset) true this
      = Done this [ScrollTo (JS.Fin 0) (JS.Fin t)]
    /\ centerScrollingOnOffset (Some offset) false (with_node (Some container) this)
      = Done (with_node (Some container) this) [SetScrollTop (JS.Fin t)]
    /\ t == spec_center_target offset (viewportHeight (state this))
    /\ 0 <= t.
Proof.
  destruct (Math_max_0_spec (offset - viewportHeight (state this) / 2)) as (t & Ht & Heq & Hpos).
  exists t. unfold centerScrollingOnOffset, spec_center_target.
  cbn [negb JS.to_number JS.sub node with_node state viewportHeight].
  rewrite Ht. repeat split; assumption.
Qed.

Example center_300_200 :
  exists t, centerScrollingOnOffset (Some 300) true (viewport 200)
              = Done (viewport 200) [ScrollTo (JS.Fin 0) (JS.Fin t)] /\ t == 200.
Proof. eexists. split; [reflexivity | reflexivity]. Qed.

Example center_50_200 :
  exists t, centerScrollingOnOffset (Some 50) true (viewport 200)
              = Done (viewport 200) [ScrollTo (JS.Fin 0) (JS.Fin t)] /\ t == 0.
Proof. eexists. split; [reflexivity | reflexivity]. Qed.

(** ** Above/below partition and hints *)

Lemma changesAbove_In (this : Instance) (x : Q) :
  In x (changesAboveViewport (fst (render this)))
  <-> In x (changeOffsets (state this)) /\ x < scrollTop (state this).
Proof.
  cbn [render fst changesAboveViewport with_changes].
  now rewrite filter_In, ltb_lt.
Qed.

Lemma changesBelow_In (this : Instance) (x : Q) :
  In x (changesBelowViewport (fst (render this)))
  <-> In x (changeOffsets (state this))
      /\ scrollTop (state this) + viewportHeight (state this) < x.
Proof.
  cbn [render fst changesBelowViewport with_changes].
  now rewrite filter_In, gtb_lt.
Qed.

(** C3. Above/below partition: after [render], [changesAboveViewport] holds
    exactly the offsets of the state strictly below [scrollTop] and
    [changesBelowViewport] exactly those strictly beyond
    [scrollTop + viewportHeight]; an offset equal to [scrollTop] is not
    above, one equal to [scrollTop + viewportHeight] is not below, and with
    a viewport height that is not negative such an offset is in neither. *)
Theorem above_below_partition (this : Instance) (x : Q) :
  let top := scrollTop (state this) in
  let bottom := scrollTop (state this) + viewportHeight (state this) in
  let offsets := changeOffsets (state this) in
  let above := changesAboveViewport (fst (render this)) in
  let below := changesBelowViewport (fst (render this)) in
  (In x above <-> In x offsets /\ x < top)
  /\ (In x below <-> In x offsets /\ bottom < x)
  /\ (x == top -> ~ In x above)
  /\ (x == bottom -> ~ In x below)
  /\ (0 <= viewportHeight (state this) ->
      x == top \/ x == bottom -> ~ In x above /\ ~ In x below).
Proof.
  cbn zeta. rewrite changesAbove_In, changesBelow_In.
  split; [tauto|]. split; [tauto|]. split; [|split].
  - intros E [_ L]. rewrite E in L. now apply Qlt_irrefl in L.
  - intros E [_ L]. rewrite E in L. now apply Qlt_irrefl in L.
  - intros Hpos E. split; intros [_ L]; destruct E as [E|E]; rewrite E in L; lra.
Qed.

Example partition_100_300 :
  changesAboveViewport (fst (render window_100_300)) = [10; 50]
  /\ changesBelowViewport (fst (render window_100_300)) = [900].
Proof. split; reflexivity. Qed.

(** C7. Hint threshold: [render] puts a hint on the page exactly when
    [viewportHeight] is strictly above 470 and the respective set is not
    empty, and then with the size of the set as count; at 470 no hint is
    rendered, at 471 a hint is rendered exactly when its set is not empty. *)
Theorem hint_threshold (this : Instance) :
  let h := viewportHeight (state this) in
  let above := changesAboveViewport (fst (render this)) in
  let below := changesBelowViewport (fst (render this)) in
  let view := snd (render this) in
  (hint_above view <> None <-> 470 < h /\ above <> [])
  /\ (hint_below view <> None <-> 470 < h /\ below <> [])
  /\ (forall n, hint_above view = Some n -> n = List.length above)
  /\ (forall n, hint_below view = Some n -> n = List.length below)
  /\ (h == 470 -> hint_above view = None /\ hint_below view = None)
  /\ (h == 471 -> (hint_above view <> None <-> above <> [])
                  /\ (hint_below view <> None <-> below <> [])).
Proof.
  cbn zeta.
  cbn [render fst snd changesAboveViewport changesBelowViewport with_changes
       hint_above hint_below].
  set (above := filter _ _). set (below := filter _ _).
  assert (Hnil : forall l : list Q, (0 <? List.length l)%nat = true <-> l <> []).
  { intros [|a l]; cbn; split; intros G; try reflexivity; try discriminate; now elim G. }
  assert (Hshow : forall l : list Q,
             (if JS.gtb (viewportHeight (state this)) 470 && (0 <? List.length l)%nat
              then Some (List.length l) else None) <> None
             <-> 470 < viewportHeight (state this) /\ l <> []).
  { intros l. rewrite <- gtb_lt, <- Hnil.
    destruct (JS.gtb _ _), (0 <? _)%nat; simpl; split;
      try congruence; try tauto; intros [? ?]; congruence. }
  split; [apply Hshow|]. split; [apply Hshow|].
  split.
  { intros n. destruct (_ && _); congruence. }
  split.
  { intros n. destruct (_ && _); congruence. }
  split.
  - intros E.
    assert (G : JS.gtb (viewportHeight (state this)) 470 = false).
    { unfold JS.gtb. apply ltb_ge. rewrite E. apply Qle_refl. }
    rewrite G. simpl. split; reflexivity.
  - intros E. rewrite !Hshow.
    assert (470 < viewportHeight (state this)) by (rewrite E; reflexivity).
    tauto.
Qed.

Example hints_at_470_and_471 :
  hint_above (snd (render (scrolled_viewport 470))) = None
  /\ hint_below (snd (render (scrolled_viewport 470))) = None
  /\ hint_above (snd (render (scrolled_viewport 471))) = Some 1%nat
  /\ hint_below (snd (render (scrolled_viewport 471))) = Some 1%nat.
Proof. repeat split; reflexivity. Qed.

(** ** The change locator *)

(** Induction on elements with the hypothesis on all children. *)
Lemma element_forall_ind (P : DOM.element -> Prop) :
  (forall cl t h s ch, Forall P ch -> P (DOM.Element cl t h s ch)) ->
  forall e, P e.
Proof.
  intros step. fix rec 1. intros [cl t h s ch]. apply step.
  induction ch as [|c ch IH]; constructor; [apply rec | exact IH].
Qed.

Lemma has_class_In (c : string) (e : DOM.element) :
  DOM.has_class c e = true <-> In c (DOM.classList e).
Proof.
  unfold DOM.has_class. rewrite existsb_exists. split.
  - intros (x & Hin & Heq). apply String.eqb_eq in Heq. now subst.
  - intros Hin. exists c. split; [assumption | apply String.eqb_refl].
Qed.

Lemma matches_change_region (e : DOM.element) :
  DOM.matches diff_selectors e = true <-> is_change_region e.
Proof.
  unfold DOM.matches, diff_selectors, is_change_region. cbn [existsb].
  rewrite !orb_true_iff, !has_class_In. intuition discriminate.
Qed.

Lemma filter_subtree_length (e : DOM.element) :
  List.length (filter (DOM.matches diff_selectors) (DOM.subtree e))
  = count_change_regions e.
Proof.
  induction e as [cl t h s ch IH] using element_forall_ind.
  cbn [DOM.subtree count_change_regions DOM.children filter].
  assert (Hch : List.length (filter (DOM.matches diff_selectors) (flat_map DOM.subtree ch))
                = list_sum (map count_change_regions ch)).
  { induction IH as [|c ch Hc _ IHch]; [reflexivity|].
    cbn [flat_map map list_sum]. rewrite filter_app, length_app, Hc, IHch. reflexivity. }
  destruct (is_change_region_dec (DOM.Element cl t h s ch)) as [Y|N].
  - apply matches_change_region in Y. rewrite Y. cbn [List.length]. now rewrite Hch.
  - destruct (DOM.matches diff_selectors (DOM.Element cl t h s ch)) eqn:E.
    + apply matches_change_region in E. contradiction.
    + now rewrite Hch.
Qed.

Lemma querySelectorAll_length (container : DOM.element) :
  List.length (DOM.querySelectorAll diff_selectors container)
  = change_regions_in container.
Proof.
  unfold DOM.querySelectorAll, DOM.descendants, change_regions_in.
  induction (DOM.children container) as [|c ch IH]; [reflexivity|].
  cbn [flat_map map list_sum].
  rewrite filter_app, length_app, filter_subtree_length, IH. reflexivity.
Qed.

Lemma getCenterOffset_or_zero (n : DOM.element) :
  getCenterOffset n = or_zero (DOM.offsetTop n) + or_zero (DOM.offsetHeight n) / 2.
Proof.
  unfold getCenterOffset, JS.get, or_zero.
  destruct (DOM.offsetTop n), (DOM.offsetHeight n); reflexivity.
Qed.

Lemma recomputeChanges_held (cb : Callback) (this : Instance) (container : DOM.element) :
  node this = Some container ->
  recomputeChanges cb this = Done (enqueue (recompute_update container cb) this) [].
Proof. intros H. unfold recomputeChanges. rewrite H. reflexivity. Qed.

(** C5. Locate correctness: on a held container, [recomputeChanges] queues
    one state update whose [changeOffsets] has one offset per change region
    of the container (as many as the tree holds), in the document order of
    the regions (the descendants in document order, the change regions
    kept), each the region's top plus half its height with a missing
    property read as 0; so a region with both properties gives
    [top + height / 2], one with neither gives 0, and a container without
    change regions gives the empty sequence. *)
Theorem locate_correct (this : Instance) (container : DOM.element) (cb : Callback) :
  let held := with_node (Some container) this in
  let regions := DOM.querySelectorAll diff_selectors container in
  exists offsets rest,
    recomputeChanges cb held
      = Done (enqueue {| partialState := rest; callback := cb |} held) []
    /\ set_changeOffsets rest = Some offsets
    /\ (forall s, changeOffsets (merge s rest) = offsets)
    /\ List.length offsets = change_regions_in container
    /\ (forall e, In e regions <-> In e (DOM.descendants container) /\ is_change_region e)
    /\ regions = filter (fun e => if is_change_region_dec e then true else false)
                        (DOM.descendants container)
    /\ Forall2 (fun region offset =>
                  offset = or_zero (DOM.offsetTop region) + or_zero (DOM.offsetHeight region) / 2)
               regions offsets
    /\ Forall2 (fun region offset =>
                  forall top height,
                    DOM.offsetTop region = Some top ->
                    DOM.offsetHeight region = Some height ->
                    offset == top + height / 2)
               regions offsets
    /\ Forall2 (fun region offset =>
                  DOM.offsetTop region = None ->
                  DOM.offsetHeight region = None ->
                  offset == 0)
               regions offsets
    /\ (change_regions_in container = 0%nat -> offsets = []).
Proof.
  cbn zeta.
  exists (map getCenterOffset (DOM.querySelectorAll diff_selectors container)).
  exists (partialState (recompute_update container cb)).
  split; [now apply recomputeChanges_held|].
  split; [reflexivity|]. split; [reflexivity|].
  split; [rewrite length_map; apply querySelectorAll_length|].
  split.
  { intros e. unfold DOM.querySelectorAll. rewrite filter_In, matches_change_region.
    reflexivity. }
  split.
  { unfold DOM.querySelectorAll. apply filter_ext. intros e.
    destruct (is_change_region_dec e) as [Y|N].
    - now apply matches_change_region.
    - destruct (DOM.matches diff_selectors e) eqn:E; [|reflexivity].
      apply matches_change_region in E. contradiction. }
  assert (F : forall (R : DOM.element -> Q -> Prop) l,
             (forall n, R n (getCenterOffset n)) -> Forall2 R l (map getCenterOffset l)).
  { intros R l HR. induction l; constructor; auto. }
  split; [apply F; intros n; apply getCenterOffset_or_zero|].
  split.
  { apply F. intros n top height Ht Hh.
    rewrite getCenterOffset_or_zero, Ht, Hh. reflexivity. }
  split.
  { apply F. intros n Ht Hh.
    rewrite getCenterOffset_or_zero, Ht, Hh. reflexivity. }
  intros Hz. rewrite <- querySelectorAll_length in Hz.
  apply length_zero_iff_nil in Hz. now rewrite Hz.
Qed.

Example locate_sample :
  map getCenterOffset (DOM.querySelectorAll diff_selectors sample_container)
  = [700 + 20 / 2; 1500 + 21 / 2]
  /\ change_regions_in sample_container = 2%nat.
Proof. split; reflexivity. Qed.

(** ** The scroll handler *)

Lemma tryScrolling_settled (this : Instance) :
  settled this -> tryScrollingToFirstChangeOrTop this = Done this [].
Proof.
  intros [F|E]; unfold tryScrollingToFirstChangeOrTop.
  - now rewrite F.
  - rewrite E, revision_id_eqb_refl, orb_true_r. reflexivity.
Qed.

Lemma flush_idle (fuel : nat) (this : Instance) :
  updateQueue this = [] -> React.flush fuel this = Done this [].
Proof. intros H. destruct fuel; simpl; now rewrite H. Qed.

Lemma run_callbacks_none (q : list Update) (this : Instance) :
  Forall (fun u => callback u = NoCallback) q ->
  React.run_callbacks q this = Done this [].
Proof.
  induction 1 as [|u q Hu _ IH]; [reflexivity|].
  cbn [React.run_callbacks]. unfold seq. rewrite Hu. cbn [run_callback ret].
  now rewrite IH.
Qed.

Lemma applied_props (q : list Update) (this : Instance) :
  props (applied q this) = props this.
Proof. reflexivity. Qed.

Lemma applied_last (q : list Update) (this : Instance) :
  lastScolledRevisionId (applied q this) = lastScolledRevisionId this.
Proof. reflexivity. Qed.

Lemma applied_node (q : list Update) (this : Instance) :
  node (applied q this) = node this.
Proof. reflexivity. Qed.

Lemma applied_queue (q : list Update) (this : Instance) :
  updateQueue (applied q this) = [].
Proof. reflexivity. Qed.

Lemma applied_state (q : list Update) (this : Instance) :
  state (applied q this)
  = fold_left (fun s u => merge s (partialState u)) q (state this).
Proof. reflexivity. Qed.

(** Sequencing after a step that only changes the instance. *)
Lemma seq_quiet (m1 m2 : method) (this this1 : Instance) :
  m1 this = Done this1 [] -> (m1 ;; m2) this = m2 this1.
Proof. intros H. unfold seq. rewrite H. now destruct (m2 this1). Qed.

Lemma seq_modify (f : Instance -> Instance) (m : method) (this : Instance) :
  (modify f ;; m) this = m (f this).
Proof. now apply seq_quiet. Qed.

Lemma seq_done (m1 m2 : method) (this this1 this2 : Instance) (log1 log2 : list effect) :
  m1 this = Done this1 log1 -> m2 this1 = Done this2 log2 ->
  (m1 ;; m2) this = Done this2 (log1 ++ log2).
Proof. intros H1 H2. unfold seq. now rewrite H1, H2. Qed.

Section CommitWork.

Variable g : Instance -> Instance.
Hypothesis g_props : forall x, props (g x) = props x.
Hypothesis g_last : forall x, lastScolledRevisionId (g x) = lastScolledRevisionId x.

Lemma settled_applied (q : list Update) (this : Instance) :
  settled this -> settled (g (applied q this)).
Proof. unfold settled. now rewrite g_props, g_last. Qed.

(** A round of React on a settled instance: merge, [render], the DOM step,
    then the callbacks. *)
Lemma commitWork_settled (next : method) (this : Instance) :
  settled this ->
  React.commitWork (modify g) next this
  = (React.run_callbacks (updateQueue this) ;; next) (g (applied (updateQueue this) this)).
Proof.
  intros Hs. unfold React.commitWork, React.processUpdateQueue, React.callRender.
  rewrite !seq_modify. unfold componentDidUpdate.
  apply seq_quiet. apply tryScrolling_settled.
  now apply (settled_applied (updateQueue this)).
Qed.

(** A round of React when the auto-scroll is due: [componentDidUpdate]
    remembers the revision and queues the recompute with its callback. *)
Lemma commitWork_due (next : method) (this : Instance) (container : DOM.element) :
  revision_id_truthy (selectedRevisionId (props this)) = true ->
  selectedRevisionId (props this) <> lastScolledRevisionId this ->
  node (g (applied (updateQueue this) this)) = Some container ->
  React.commitWork (modify g) next this
  = (React.run_callbacks (updateQueue this) ;; next)
      (enqueue (recompute_update container CenterOnFirstChangeOrTop)
         (with_lastScolledRevisionId (selectedRevisionId (props this))
            (g (applied (updateQueue this) this)))).
Proof.
  intros Ht Hne Hn. unfold React.commitWork, React.processUpdateQueue, React.callRender.
  rewrite !seq_modify. unfold componentDidUpdate.
  apply seq_quiet. unfold tryScrollingToFirstChangeOrTop.
  change (fst (render _)) with (applied (updateQueue this) this).
  rewrite g_props, g_last, applied_props, applied_last.
  rewrite Ht. apply revision_id_eqb_neq in Hne. rewrite Hne. cbn [negb orb].
  rewrite seq_modify. apply recomputeChanges_held.
  cbn [node with_lastScolledRevisionId]. exact Hn.
Qed.

End CommitWork.

(** React on a settled instance whose queued updates have no callback:
    one round, the state merged and [render] run. *)
Lemma flush_quiet (fuel : nat) (this : Instance) :
  settled this -> no_callbacks (updateQueue this) -> updateQueue this <> [] ->
  React.flush (S fuel) this = Done (applied (updateQueue this) this) [].
Proof.
  intros Hs Hq Hne. cbn [React.flush].
  destruct (updateQueue this) as [|u q] eqn:E; [congruence|].
  change ret with (modify (fun x : Instance => x)).
  rewrite commitWork_settled by auto. rewrite E.
  rewrite (seq_quiet _ _ _ _ (run_callbacks_none _ _ Hq)).
  now apply flush_idle.
Qed.

(** C10. Scroll-event frame property: [handleScroll] queues one state update
    without callback that carries the [scrollTop] of the event target (0
    when the target or its [scrollTop] is missing) and nothing else, so
    merging it keeps [changeOffsets] and [viewportHeight]; once React has
    processed it on a mounted component at rest, the state differs from the
    previous one in [scrollTop] only, and props, container and remembered
    revision are as before. *)
Theorem scroll_event_frame (e : ScrollEvent) (this : Instance) :
  let top := JS.get (target e) DOM.scrollTop 0 in
  (top = match target e with
         | Some el => or_zero (DOM.scrollTop el)
         | None => 0
         end)
  /\ handleScroll e this = Done (enqueue (scroll_update e) this) []
  /\ callback (scroll_update e) = NoCallback
  /\ (forall s,
        merge s (partialState (scroll_update e))
        = {| changeOffsets := changeOffsets s;
             scrollTop := top;
             viewportHeight := viewportHeight s |})
  /\ (forall fuel,
        settled this -> updateQueue this = [] ->
        exists this',
          React.dispatch (S fuel) (React.Scroll e) this = Done this' []
          /\ state this' = {| changeOffsets := changeOffsets (state this);
                              scrollTop := top;
                              viewportHeight := viewportHeight (state this) |}
          /\ props this' = props this
          /\ node this' = node this
          /\ lastScolledRevisionId this' = lastScolledRevisionId this
          /\ updateQueue this' = []).
Proof.
  cbn zeta. split.
  { unfold JS.get, or_zero. destruct (target e) as [el|]; reflexivity. }
  split; [reflexivity|]. split; [reflexivity|]. split; [reflexivity|].
  intros fuel Hs Hq.
  exists (applied [scroll_update e] this).
  split; [|repeat split].
  cbn [React.dispatch].
  rewrite (seq_quiet _ _ this (enqueue (scroll_update e) this)) by reflexivity.
  assert (Q : updateQueue (enqueue (scroll_update e) this) = [scroll_update e]).
  { unfold enqueue. cbn [updateQueue with_updateQueue]. now rewrite Hq. }
  rewrite flush_quiet.
  - now rewrite Q.
  - exact Hs.
  - rewrite Q. repeat constructor.
  - rewrite Q. discriminate.
Qed.

(** ** The scroll listener *)

Lemma ref_calls_cycles (cs : list DOM.element) (this : Instance) :
  ref_calls (mount_unmount_refs cs) (with_node None this)
  = Done (with_node None this) (listener_log cs).
Proof.
  induction cs as [|c cs IH]; [reflexivity|].
  change (mount_unmount_refs (c :: cs)) with (Some c :: None :: mount_unmount_refs cs).
  change (listener_log (c :: cs))
    with ([NodeAddScrollListener c] ++ [NodeRemoveScrollListener c] ++ listener_log cs).
  cbn [ref_calls].
  apply seq_done with (this1 := with_node (Some c) this); [reflexivity|].
  apply seq_done with (this1 := with_node None this); [reflexivity | exact IH].
Qed.

(** C9 (counterexample). The ref callback called with [null] while no
    container is held does not return: it raises a [TypeError]. *)
Lemma redundant_teardown_throws :
  handleScrollableRef None (new_instance (sample_props (Id 1))) = Threw TypeError
  /\ ~ (exists this' log,
          handleScrollableRef None (new_instance (sample_props (Id 1))) = Done this' log).
Proof. split; [reflexivity|]. intros (this' & log & H). discriminate H. Qed.

(** C9 (amended). The ref callback called with a container holds it and
    attaches the scroll listener to it once; called with [null] while a
    container is held it detaches the listener from that container once,
    without error, and holds nothing; over any succession of mounts and
    unmounts each container gets exactly one attach followed by one detach.
    The teardown is not guarded: with nothing held it raises a
    [TypeError]. *)
Theorem listener_lifecycle (this : Instance) (cs : list DOM.element) :
  (forall c, handleScrollableRef (Some c) this
             = Done (with_node (Some c) this) [NodeAddScrollListener c])
  /\ (forall c, handleScrollableRef None (with_node (Some c) this)
                = Done (with_node None this) [NodeRemoveScrollListener c])
  /\ ref_calls (mount_unmount_refs cs) (with_node None this)
     = Done (with_node None this) (listener_log cs)
  /\ handleScrollableRef None (with_node None this) = Threw TypeError.
Proof.
  split; [reflexivity|]. split; [reflexivity|].
  split; [apply ref_calls_cycles | reflexivity].
Qed.

(** ** Hint scrolls *)

Lemma last_app_one (l : list Q) (x : Q) :
  JS.last l = Some x -> exists l', l = l' ++ [x].
Proof.
  induction l as [|a l IH]; [discriminate|].
  destruct l as [|b l].
  - intros H. inversion H. now exists [].
  - intros H. destruct (IH H) as (l' & E). exists (a :: l'). now rewrite E.
Qed.

Lemma last_None (l : list Q) : JS.last l = None <-> l = [].
Proof.
  split; [|now intros ->].
  induction l as [|a l IH]; [reflexivity|].
  destruct l as [|b l]; [discriminate|]. intros H. now apply IH in H.
Qed.

Lemma sorted_filter (f : Q -> bool) (l : list Q) :
  StronglySorted Qle l -> StronglySorted Qle (filter f l).
Proof.
  induction 1 as [|a l Hs IH Ha]; [constructor|].
  cbn [filter]. destruct (f a); [|exact IH].
  constructor; [exact IH|].
  rewrite Forall_forall in *. intros y Hy. apply filter_In in Hy. now apply Ha.
Qed.

Lemma sorted_last_max (l : list Q) (x : Q) :
  StronglySorted Qle l -> JS.last l = Some x -> forall y, In y l -> y <= x.
Proof.
  intros Hs Hl. destruct (last_app_one l x Hl) as (l' & ->). clear Hl.
  induction l' as [|a l' IH]; intros y Hy.
  - destruct Hy as [<-|[]]. apply Qle_refl.
  - cbn [app] in Hs, Hy. inversion Hs as [|? ? Hs' Ha]; subst.
    destruct Hy as [<-|Hy]; [|now apply IH].
    rewrite Forall_forall in Ha. apply Ha. apply in_or_app. right. now left.
Qed.

Lemma sorted_first_min (l : list Q) (x : Q) :
  StronglySorted Qle l -> JS.first l = Some x -> forall y, In y l -> x <= y.
Proof.
  intros Hs Hf y Hy. destruct l as [|a l]; [discriminate|].
  inversion Hf; subst. inversion Hs as [|? ? _ Ha]; subst.
  destruct Hy as [<-|Hy]; [apply Qle_refl|].
  rewrite Forall_forall in Ha. now apply Ha.
Qed.

Lemma last_In (l : list Q) (x : Q) : JS.last l = Some x -> In x l.
Proof.
  intros H. destruct (last_app_one l x H) as (l' & ->).
  apply in_or_app. right. now left.
Qed.

Lemma first_In (l : list Q) (x : Q) : JS.first l = Some x -> In x l.
Proof. destruct l; [discriminate|]. intros H. inversion H. now left. Qed.

(** The animated call for a numeric offset. *)
Lemma centerScrollingOnOffset_animated (this : Instance) (offset : Q) :
  exists t,
    centerScrollingOnOffset (Some offset) true this
      = Done this [ScrollTo (JS.Fin 0) (JS.Fin t)]
    /\ t == spec_center_target offset (viewportHeight (state this)).
Proof.
  destruct (Math_max_0_spec (offset - viewportHeight (state this) / 2)) as (t & Ht & Heq & _).
  exists t. unfold centerScrollingOnOffset, spec_center_target.
  cbn [negb JS.to_number JS.sub]. rewrite Ht. split; [reflexivity | assumption].
Qed.

(** C6 (counterexample). With no change above the viewport, [scrollAbove]
    is not a no-op: it calls the animated scroll helper with a [NaN] target
    and records the analytics event. *)
Lemma scroll_above_empty_not_noop :
  changesAboveViewport (fst (render (viewport 600))) = []
  /\ scrollAbove (fst (render (viewport 600)))
     = Done (fst (render (viewport 600)))
         [ScrollTo (JS.Fin 0) JS.NaN; RecordTracksEvent scroll_hint_used "above"]
  /\ scrollAbove (fst (render (viewport 600))) <> Done (fst (render (viewport 600))) [].
Proof. split; [reflexivity|]. split; [reflexivity | discriminate]. Qed.

(** C6 (amended). With the offsets of the state ascending and [render]
    done: when a change lies above the viewport, [scrollAbove] asks for the
    animated scroll centred on the largest offset strictly below
    [scrollTop] and records exactly one analytics event tagged [above];
    when one lies below, [scrollBelow] does the same for the smallest offset
    strictly beyond [scrollTop + viewportHeight], tagged [below].  When the
    respective set is empty no hint is rendered, so a click cannot reach
    the handler; a rendered hint calls it.  Every invocation of a handler,
    whatever the sets, makes one call to the animated scroll helper and
    records exactly one analytics event with its direction. *)
Theorem hint_scroll (this : Instance) :
  StronglySorted Qle (changeOffsets (state this)) ->
  let shown := fst (render this) in
  let view := snd (render this) in
  let offsets := changeOffsets (state this) in
  let top := scrollTop (state this) in
  let bottom := scrollTop (state this) + viewportHeight (state this) in
  (forall x, JS.last (changesAboveViewport shown) = Some x ->
     (In x offsets /\ x < top /\ forall y, In y offsets -> y < top -> y <= x)
     /\ exists t,
          scrollAbove shown
          = Done shown [ScrollTo (JS.Fin 0) (JS.Fin t);
                        RecordTracksEvent scroll_hint_used "above"]
          /\ t == spec_center_target x (viewportHeight (state this)))
  /\ (forall x, JS.first (changesBelowViewport shown) = Some x ->
     (In x offsets /\ bottom < x /\ forall y, In y offsets -> bottom < y -> x <= y)
     /\ exists t,
          scrollBelow shown
          = Done shown [ScrollTo (JS.Fin 0) (JS.Fin t);
                        RecordTracksEvent scroll_hint_used "below"]
          /\ t == spec_center_target x (viewportHeight (state this)))
  /\ (changesAboveViewport shown = [] ->
      hint_above view = None /\ React.clickHintAbove shown = Done shown [])
  /\ (changesBelowViewport shown = [] ->
      hint_below view = None /\ React.clickHintBelow shown = Done shown [])
  /\ (hint_above view <> None -> React.clickHintAbove shown = scrollAbove shown)
  /\ (hint_below view <> None -> React.clickHintBelow shown = scrollBelow shown)
  /\ (exists y, scrollAbove shown
                = Done shown [ScrollTo (JS.Fin 0) y;
                              RecordTracksEvent scroll_hint_used "above"])
  /\ (exists y, scrollBelow shown
                = Done shown [ScrollTo (JS.Fin 0) y;
                              RecordTracksEvent scroll_hint_used "below"]).
Proof.
  intros Hs. cbn zeta.
  split; [|split; [|split; [|split; [|split; [|split; [|split]]]]]].
  - intros x Hx. split.
    + pose proof (last_In _ _ Hx) as Hin.
      apply changesAbove_In in Hin. destruct Hin as [Hin Hlt].
      repeat split; try assumption.
      intros y Hy Hylt.
      apply (sorted_last_max (changesAboveViewport (fst (render this))) x).
      * apply sorted_filter. exact Hs.
      * exact Hx.
      * apply changesAbove_In. now split.
    + destruct (centerScrollingOnOffset_animated (fst (render this)) x) as (t & Ht & Heq).
      exists t. split; [|exact Heq].
      unfold scrollAbove. rewrite Hx.
      exact (seq_done _ _ _ _ _ _ _ Ht eq_refl).
  - intros x Hx. split.
    + pose proof (first_In _ _ Hx) as Hin.
      apply changesBelow_In in Hin. destruct Hin as [Hin Hlt].
      repeat split; try assumption.
      intros y Hy Hylt.
      apply (sorted_first_min (changesBelowViewport (fst (render this))) x).
      * apply sorted_filter. exact Hs.
      * exact Hx.
      * apply changesBelow_In. now split.
    + destruct (centerScrollingOnOffset_animated (fst (render this)) x) as (t & Ht & Heq).
      exists t. split; [|exact Heq].
      unfold scrollBelow. rewrite Hx.
      exact (seq_done _ _ _ _ _ _ _ Ht eq_refl).
  - intros E.
    assert (H : hint_above (snd (render this)) = None).
    { cbn [render fst snd changesAboveViewport with_changes hint_above] in *.
      rewrite E. cbn. now rewrite andb_false_r. }
    split; [exact H|]. unfold React.clickHintAbove.
    change (hint_above (snd (render (fst (render this)))))
      with (hint_above (snd (render this))).
    now rewrite H.
  - intros E.
    assert (H : hint_below (snd (render this)) = None).
    { cbn [render fst snd changesBelowViewport with_changes hint_below] in *.
      rewrite E. cbn. now rewrite andb_false_r. }
    split; [exact H|]. unfold React.clickHintBelow.
    change (hint_below (snd (render (fst (render this)))))
      with (hint_below (snd (render this))).
    now rewrite H.
  - intros H. unfold React.clickHintAbove.
    change (hint_above (snd (render (fst (render this)))))
      with (hint_above (snd (render this))).
    destruct (hint_above (snd (render this))); [reflexivity | congruence].
  - intros H. unfold React.clickHintBelow.
    change (hint_below (snd (render (fst (render this)))))
      with (hint_below (snd (render this))).
    destruct (hint_below (snd (render this))); [reflexivity | congruence].
  - eexists. unfold scrollAbove, seq, centerScrollingOnOffset. cbn [negb emit].
    reflexivity.
  - eexists. unfold scrollBelow, seq, centerScrollingOnOffset. cbn [negb emit].
    reflexivity.
Qed.

Lemma window_100_300_sorted :
  StronglySorted Qle (changeOffsets (state window_100_300)).
Proof.
  cbn [window_100_300 changeOffsets state with_state].
  repeat (constructor; try discriminate).
Defined.

Lemma hint_scroll_witness :
  StronglySorted Qle (changeOffsets (state window_100_300))
  /\ exists t,
       scrollAbove (fst (render window_100_300))
       = Done (fst (render window_100_300))
           [ScrollTo (JS.Fin 0) (JS.Fin t); RecordTracksEvent scroll_hint_used "above"]
       /\ t == spec_center_target 50 300.
Proof.
  split; [exact window_100_300_sorted|].
  destruct (hint_scroll window_100_300 window_100_300_sorted) as (HA & _).
  destruct (HA 50 eq_refl) as (_ & t & H1 & H2).
  exists t. split; assumption.
Defined.

(** ** Auto-scroll *)

Lemma instant_scrolls_app (l1 l2 : list effect) :
  instant_scrolls (l1 ++ l2) = instant_scrolls l1 ++ instant_scrolls l2.
Proof. apply flat_map_app. Qed.

Lemma or_else_hd (l : list Q) : JS.or_else (nth_error l 0) 0 == hd 0 l.
Proof.
  destruct l as [|a l]; [reflexivity|].
  cbn [nth_error hd JS.or_else]. unfold JS.truthy.
  destruct (Qeq_bool a 0) eqn:E; cbn [negb]; [|reflexivity].
  apply Qeq_bool_iff in E. now symmetry.
Qed.

(** The target is the centering formula on the first offset, or on 0 when
    there is none. *)
Lemma auto_scroll_target_spec (container : DOM.element) :
  exists t, auto_scroll_target container = JS.Fin t
            /\ t == spec_center_target (hd 0 (located container)) (measured_height container)
            /\ 0 <= t.
Proof.
  unfold auto_scroll_target. cbn [JS.to_number JS.sub].
  destruct (Math_max_0_spec
              (JS.or_else (nth_error (located container) 0) 0 - measured_height container / 2))
    as (t & Ht & Heq & Hpos).
  exists t. split; [exact Ht|]. split; [|exact Hpos].
  rewrite Heq. unfold spec_center_target. now rewrite or_else_hd.
Qed.

Lemma at_rest_settled (r l : revision_id) (this : Instance) :
  at_rest r l this -> settled this.
Proof.
  intros (Hp & Hl & [F|E] & _); [left | right]; congruence.
Qed.

Lemma centerOnFirstChangeOrTop_applied
      (this : Instance) (container held : DOM.element) (cb : Callback) :
  node this = Some held ->
  centerOnFirstChangeOrTop (applied [recompute_update container cb] this)
  = Done (applied [recompute_update container cb] this)
         [SetScrollTop (auto_scroll_target container)].
Proof.
  intros Hn. unfold centerOnFirstChangeOrTop, centerScrollingOnOffset. cbn [negb].
  rewrite applied_node, Hn. reflexivity.
Qed.

(** React processing the queued recompute of the auto-scroll: the state
    takes what was read off the container and the callback scrolls. *)
Lemma flush_autoscroll (fuel : nat) (this : Instance) (container : DOM.element) :
  settled this ->
  (exists held, node this = Some held) ->
  updateQueue this = [recompute_update container CenterOnFirstChangeOrTop] ->
  React.flush (S fuel) this
  = Done (applied [recompute_update container CenterOnFirstChangeOrTop] this)
         [SetScrollTop (auto_scroll_target container)].
Proof.
  intros Hs (held & Hn) Hq. cbn [React.flush]. rewrite Hq.
  change ret with (modify (fun x : Instance => x)).
  rewrite commitWork_settled by auto. rewrite Hq.
  cbn [React.run_callbacks run_callback].
  pose proof (centerOnFirstChangeOrTop_applied this container held
                CenterOnFirstChangeOrTop Hn) as C.
  exact (seq_done _ _ _ _ _ _ _ (seq_done _ _ _ _ _ _ _ C eq_refl)
           (flush_idle fuel (applied _ this) eq_refl)).
Qed.

Lemma at_rest_applied (r l : revision_id) (q : list Update) (this : Instance) :
  selectedRevisionId (props this) = r ->
  lastScolledRevisionId this = l ->
  revision_id_truthy r = false \/ r = l ->
  (exists container, node this = Some container) ->
  at_rest r l (applied q this).
Proof. intros Hp Hl Hs Hn. repeat split; assumption. Qed.

Lemma dom_step_props dom x : props (dom_step dom x) = props x.
Proof. unfold dom_step. now destruct (node x). Qed.

Lemma dom_step_last dom x : lastScolledRevisionId (dom_step dom x) = lastScolledRevisionId x.
Proof. unfold dom_step. now destruct (node x). Qed.

Lemma dom_step_queue dom x : updateQueue (dom_step dom x) = updateQueue x.
Proof. unfold dom_step. now destruct (node x). Qed.

Lemma dom_step_state dom x : state (dom_step dom x) = state x.
Proof. unfold dom_step. now destruct (node x). Qed.

Lemma dom_step_held dom x :
  (exists c, node x = Some c) -> node (dom_step dom x) = Some dom.
Proof. intros (c & H). unfold dom_step. now rewrite H. Qed.

Lemma at_rest_dom_step r l dom this :
  at_rest r l this -> at_rest r l (dom_step dom this).
Proof.
  intros (Hp & Hl & Hs & Hn & Hq). unfold at_rest.
  rewrite dom_step_props, dom_step_last, dom_step_queue, (dom_step_held dom this Hn).
  repeat split; try assumption. now exists dom.
Qed.

Lemma componentWillReceiveProps_changed (nextProps : Props) (this : Instance) :
  selectedRevisionId nextProps <> selectedRevisionId (props this) ->
  componentWillReceiveProps nextProps this = Done (enqueue clear_update this) [].
Proof.
  intros H. unfold componentWillReceiveProps.
  apply revision_id_eqb_neq in H. now rewrite H.
Qed.

Lemma componentWillReceiveProps_same (nextProps : Props) (this : Instance) :
  selectedRevisionId nextProps = selectedRevisionId (props this) ->
  componentWillReceiveProps nextProps this = Done this [].
Proof.
  intros H. unfold componentWillReceiveProps.
  now rewrite H, revision_id_eqb_refl.
Qed.

Lemma tryScrolling_due (this : Instance) (container : DOM.element) :
  revision_id_truthy (selectedRevisionId (props this)) = true ->
  selectedRevisionId (props this) <> lastScolledRevisionId this ->
  node this = Some container ->
  tryScrollingToFirstChangeOrTop this
  = Done (enqueue (recompute_update container CenterOnFirstChangeOrTop)
            (with_lastScolledRevisionId (selectedRevisionId (props this)) this)) [].
Proof.
  intros Ht Hne Hn. unfold tryScrollingToFirstChangeOrTop.
  apply revision_id_eqb_neq in Hne. rewrite Ht, Hne. cbn [negb orb].
  rewrite seq_modify. now apply recomputeChanges_held.
Qed.

Lemma truthy_not_Null (r : revision_id) : revision_id_truthy r = true -> r <> Null.
Proof. intros H ->. discriminate H. Qed.

(** Mounting with a truthy revision selected: the listeners are registered,
    the state takes what is read off the container, and there is one
    instant scroll. *)
Lemma mount_scrolls (window_defined : bool) (fuel : nat) (p : Props) (container : DOM.element) :
  revision_id_truthy (selectedRevisionId p) = true ->
  exists this' log,
    React.mount window_defined (S fuel) container (new_instance p) = Done this' log
    /\ at_rest (selectedRevisionId p) (selectedRevisionId p) this'
    /\ state this' = {| changeOffsets := located container;
                        scrollTop := JS.get (Some container) DOM.scrollTop 0;
                        viewportHeight := measured_height container |}
    /\ instant_scrolls log = [auto_scroll_target container].
Proof.
  intros Ht. unfold React.mount, React.callRender. rewrite seq_modify.
  set (this1 := with_node (Some container) (fst (render (new_instance p)))).
  set (this2 := enqueue (recompute_update container CenterOnFirstChangeOrTop)
                  (with_lastScolledRevisionId (selectedRevisionId p) this1)).
  assert (H1 : handleScrollableRef (Some container) (fst (render (new_instance p)))
               = Done this1 [NodeAddScrollListener container]) by reflexivity.
  assert (H2 : componentDidMount window_defined this1
               = Done this2 (if window_defined then [WindowAddResizeListener] else [])).
  { unfold componentDidMount.
    rewrite (seq_quiet _ _ this1 this2).
    - now destruct window_defined.
    - apply (tryScrolling_due this1 container); [exact Ht | | reflexivity].
      now apply truthy_not_Null. }
  assert (H3 : React.flush (S fuel) this2
               = Done (applied [recompute_update container CenterOnFirstChangeOrTop] this2)
                   [SetScrollTop (auto_scroll_target container)]).
  { apply flush_autoscroll; [now right | now exists container | reflexivity]. }
  eexists. eexists. split.
  - exact (seq_done _ _ _ _ _ _ _ H1 (seq_done _ _ _ _ _ _ _ H2 H3)).
  - split; [|split; [reflexivity|]].
    + apply at_rest_applied; [reflexivity | reflexivity | now right | now exists container].
    + now destruct window_defined.
Qed.

(** Mounting with a falsy revision selected: no update, no scroll. *)
Lemma mount_idle (window_defined : bool) (fuel : nat) (p : Props) (container : DOM.element) :
  revision_id_truthy (selectedRevisionId p) = false ->
  exists this' log,
    React.mount window_defined fuel container (new_instance p) = Done this' log
    /\ at_rest (selectedRevisionId p) Null this'
    /\ instant_scrolls log = [].
Proof.
  intros Hf. unfold React.mount, React.callRender. rewrite seq_modify.
  set (this1 := with_node (Some container) (fst (render (new_instance p)))).
  assert (H1 : handleScrollableRef (Some container) (fst (render (new_instance p)))
               = Done this1 [NodeAddScrollListener container]) by reflexivity.
  assert (H2 : componentDidMount window_defined this1
               = Done this1 (if window_defined then [WindowAddResizeListener] else [])).
  { unfold componentDidMount.
    rewrite (seq_quiet _ _ this1 this1).
    - now destruct window_defined.
    - apply tryScrolling_settled. now left. }
  exists this1. eexists. split.
  - exact (seq_done _ _ _ _ _ _ _ H1
             (seq_done _ _ _ _ _ _ _ H2 (flush_idle fuel this1 eq_refl))).
  - split.
    + repeat split; try reflexivity; [now left | now exists container].
    + now destruct window_defined.
Qed.

Section Traces.

Variable window_defined : bool.
Variable fuel : nat.
Variable r l : revision_id.

Lemma click_above_log (this : Instance) :
  exists log, React.clickHintAbove this = Done this log /\ instant_scrolls log = [].
Proof.
  unfold React.clickHintAbove. destruct (hint_above _); [|now exists []].
  unfold scrollAbove, seq, centerScrollingOnOffset. cbn [negb emit].
  eexists. split; reflexivity.
Qed.

Lemma click_below_log (this : Instance) :
  exists log, React.clickHintBelow this = Done this log /\ instant_scrolls log = [].
Proof.
  unfold React.clickHintBelow. destruct (hint_below _); [|now exists []].
  unfold scrollBelow, seq, centerScrollingOnOffset. cbn [negb emit].
  eexists. split; reflexivity.
Qed.

(** While the revision stays [r], an event leaves the component at rest and
    does no instant scroll. *)
Lemma dispatch_at_rest (ev : React.event) (this : Instance) :
  at_rest r l this -> keeps_revision r ev ->
  exists this' log,
    React.dispatch (S fuel) ev this = Done this' log
    /\ at_rest r l this'
    /\ instant_scrolls log = [].
Proof.
  intros Hr Hk. pose proof (at_rest_settled r l this Hr) as Hs.
  destruct Hr as (Hp & Hl & Hrl & Hn & Hq).
  destruct ev as [e| | | |nextProps dom|dom]; cbn [React.dispatch].
  - (* scroll *)
    exists (applied [scroll_update e] this), [].
    split; [|split; [now apply at_rest_applied | reflexivity]].
    rewrite (seq_quiet _ _ this (enqueue (scroll_update e) this)) by reflexivity.
    assert (Q : updateQueue (enqueue (scroll_update e) this) = [scroll_update e]).
    { unfold enqueue. cbn [updateQueue with_updateQueue]. now rewrite Hq. }
    rewrite flush_quiet.
    + now rewrite Q.
    + exact Hs.
    + rewrite Q. repeat constructor.
    + rewrite Q. discriminate.
  - (* resize *)
    destruct Hn as (c & Hn).
    exists (applied [recompute_update c NoCallback] this), [].
    split; [|split; [apply at_rest_applied; eauto | reflexivity]].
    rewrite (seq_quiet _ _ this (enqueue (recompute_update c NoCallback) this))
      by now apply recomputeChanges_held.
    assert (Q : updateQueue (enqueue (recompute_update c NoCallback) this)
                = [recompute_update c NoCallback]).
    { unfold enqueue. cbn [updateQueue with_updateQueue]. now rewrite Hq. }
    rewrite flush_quiet.
    + now rewrite Q.
    + exact Hs.
    + rewrite Q. repeat constructor.
    + rewrite Q. discriminate.
  - (* click above *)
    destruct (click_above_log this) as (log & Hc & Hi).
    exists this, log. split; [|split; [repeat split; assumption | exact Hi]].
    rewrite <- (app_nil_r log).
    exact (seq_done _ _ _ _ _ _ _ Hc (flush_idle (S fuel) this Hq)).
  - (* click below *)
    destruct (click_below_log this) as (log & Hc & Hi).
    exists this, log. split; [|split; [repeat split; assumption | exact Hi]].
    rewrite <- (app_nil_r log).
    exact (seq_done _ _ _ _ _ _ _ Hc (flush_idle (S fuel) this Hq)).
  - (* new props, same revision *)
    cbn [keeps_revision] in Hk.
    exists (dom_step dom (applied [] (with_props nextProps this))), [].
    split; [|split; [|reflexivity]].
    + unfold React.receiveProps.
      rewrite (seq_quiet _ _ this this)
        by (apply componentWillReceiveProps_same; congruence).
      rewrite seq_modify.
      change (React.domChange dom) with (modify (dom_step dom)).
      rewrite commitWork_settled;
        [| apply dom_step_props | apply dom_step_last
         | destruct Hrl; [left | right];
           cbn [props with_props lastScolledRevisionId]; congruence].
      cbn [updateQueue with_props]. rewrite Hq.
      cbn [React.run_callbacks]. rewrite (seq_quiet _ _ _ _ eq_refl).
      apply flush_idle. now rewrite dom_step_queue.
    + apply at_rest_dom_step.
      apply at_rest_applied; [exact Hk | exact Hl | exact Hrl | exact Hn].
  - (* the DOM changes *)
    exists (dom_step dom this), []. split; [reflexivity|].
    split; [|reflexivity]. apply at_rest_dom_step. repeat split; assumption.
Qed.

Lemma run_at_rest (evs : list React.event) (this : Instance) :
  at_rest r l this -> Forall (keeps_revision r) evs ->
  exists this' log,
    React.run (S fuel) evs this = Done this' log
    /\ at_rest r l this'
    /\ instant_scrolls log = [].
Proof.
  intros Hr Hk. revert this Hr.
  induction Hk as [|ev evs Hev _ IH]; intros this Hr.
  - exists this, []. split; [reflexivity|]. split; [exact Hr | reflexivity].
  - destruct (dispatch_at_rest ev this Hr Hev) as (this1 & log1 & H1 & Hr1 & Hi1).
    destruct (IH this1 Hr1) as (this2 & log2 & H2 & Hr2 & Hi2).
    exists this2, (log1 ++ log2). split; [|split; [exact Hr2|]].
    + cbn [React.run]. exact (seq_done _ _ _ _ _ _ _ H1 H2).
    + now rewrite instant_scrolls_app, Hi1, Hi2.
Qed.

(** A change to a truthy revision other than the one last scrolled to: the
    offsets are cleared, then recomputed from the container as it is after
    the change, and there is one instant scroll, to the target computed
    from that container. *)
Lemma receiveProps_scrolls (nextProps : Props) (dom : DOM.element) (this : Instance) :
  at_rest r l this ->
  revision_id_truthy (selectedRevisionId nextProps) = true ->
  selectedRevisionId nextProps <> l ->
  exists this',
    React.receiveProps (S fuel) nextProps dom this
    = Done this' [SetScrollTop (auto_scroll_target dom)]
    /\ at_rest (selectedRevisionId nextProps) (selectedRevisionId nextProps) this'
    /\ state this' = {| changeOffsets := located dom;
                        scrollTop := JS.get (Some dom) DOM.scrollTop 0;
                        viewportHeight := measured_height dom |}.
Proof.
  intros (Hp & Hl & Hrl & Hn & Hq) Ht Hne.
  assert (Hner : selectedRevisionId nextProps <> r).
  { destruct Hrl as [F|E]; [|congruence]. intros E. rewrite E in Ht. congruence. }
  set (this1 := with_props nextProps (enqueue clear_update this)).
  assert (Q1 : updateQueue this1 = [clear_update]).
  { cbn [this1 updateQueue with_props enqueue with_updateQueue]. now rewrite Hq. }
  set (this2 := enqueue (recompute_update dom CenterOnFirstChangeOrTop)
                  (with_lastScolledRevisionId (selectedRevisionId nextProps)
                     (dom_step dom (applied [clear_update] this1)))).
  exists (applied [recompute_update dom CenterOnFirstChangeOrTop] this2).
  assert (Hheld : node (dom_step dom (applied [clear_update] this1)) = Some dom).
  { apply dom_step_held. exact Hn. }
  assert (P2 : props this2 = nextProps).
  { unfold this2, enqueue. cbn [props with_updateQueue with_lastScolledRevisionId].
    now rewrite dom_step_props. }
  split; [|split].
  - unfold React.receiveProps.
    rewrite (seq_quiet _ _ this (enqueue clear_update this))
      by (apply componentWillReceiveProps_changed; congruence).
    rewrite seq_modify. fold this1.
    change (React.domChange dom) with (modify (dom_step dom)).
    rewrite (commitWork_due (dom_step dom) (dom_step_props dom) (dom_step_last dom)
               _ this1 dom);
      [| exact Ht
       | cbn [this1 props with_props lastScolledRevisionId enqueue with_updateQueue];
         congruence
       | rewrite Q1; exact Hheld].
    rewrite Q1. cbn [React.run_callbacks]. rewrite (seq_quiet _ _ _ _ eq_refl).
    apply (flush_autoscroll fuel this2 dom).
    + right. now rewrite P2.
    + exists dom. exact Hheld.
    + unfold this2, enqueue. cbn [updateQueue with_updateQueue with_lastScolledRevisionId].
      now rewrite dom_step_queue.
  - apply at_rest_applied; [now rewrite P2 | reflexivity | now right |].
    exists dom. exact Hheld.
  - reflexivity.
Qed.

End Traces.

Lemma flush_step (fuel : nat) (this : Instance) :
  updateQueue this <> [] ->
  React.flush (S fuel) this = React.commitWork ret (React.flush fuel) this.
Proof.
  intros H. cbn [React.flush]. destruct (updateQueue this); [congruence | reflexivity].
Qed.

Lemma run_callbacks_held (q : list Update) (this : Instance) :
  (exists held, node this = Some held) ->
  exists log, React.run_callbacks q this = Done this log.
Proof.
  intros (held & Hn). induction q as [|u q (log & IH)]; [now exists []|].
  cbn [React.run_callbacks].
  assert (C : exists log1, run_callback (callback u) this = Done this log1).
  { destruct (callback u); cbn [run_callback]; [now exists []|].
    unfold centerOnFirstChangeOrTop, centerScrollingOnOffset. cbn [negb].
    rewrite Hn. eexists. reflexivity. }
  destruct C as (log1 & C). exists (log1 ++ log).
  exact (seq_done _ _ _ _ _ _ _ C IH).
Qed.

(** X12. React's update loop comes to rest: on a component holding its
    container, two rounds empty the queue, whatever was queued and whether
    or not an auto-scroll is due; [componentDidUpdate] calling [setState]
    does not loop, since the revision is remembered before the recompute
    is queued. *)
Lemma flush_terminates (fuel : nat) (this : Instance) :
  (exists held, node this = Some held) ->
  exists this' log,
    React.flush (S (S fuel)) this = Done this' log /\ updateQueue this' = [].
Proof.
  intros Hn. destruct (updateQueue this) as [|u q] eqn:Eq.
  { exists this, []. split; [now apply flush_idle | exact Eq]. }
  rewrite flush_step by congruence. clear u q Eq.
  change ret with (modify (fun x : Instance => x)).
  destruct (revision_id_truthy (selectedRevisionId (props this))) eqn:Ht.
  2:{ rewrite commitWork_settled by (auto; now left).
      destruct (run_callbacks_held (updateQueue this) (applied (updateQueue this) this))
        as (log & Hc); [now rewrite applied_node|].
      exists (applied (updateQueue this) this), (log ++ []). split; [|reflexivity].
      exact (seq_done _ _ _ _ _ _ _ Hc
               (flush_idle _ (applied (updateQueue this) this) eq_refl)). }
  destruct (revision_id_eqb (selectedRevisionId (props this)) (lastScolledRevisionId this))
    eqn:He.
  { apply revision_id_eqb_eq in He.
    rewrite commitWork_settled by (auto; now right).
    destruct (run_callbacks_held (updateQueue this) (applied (updateQueue this) this))
      as (log & Hc); [now rewrite applied_node|].
    exists (applied (updateQueue this) this), (log ++ []). split; [|reflexivity].
    exact (seq_done _ _ _ _ _ _ _ Hc
               (flush_idle _ (applied (updateQueue this) this) eq_refl)). }
  apply revision_id_eqb_neq in He. destruct Hn as (held & Hn).
  rewrite (commitWork_due (fun x => x) (fun _ => eq_refl) (fun _ => eq_refl) _ this held)
    by assumption.
  set (this2 := enqueue _ _).
  destruct (run_callbacks_held (updateQueue this) this2) as (log & Hc);
    [now exists held|].
  eexists. eexists. split.
  - refine (seq_done _ _ _ _ _ _ _ Hc _).
    apply (flush_autoscroll fuel this2 held); [now right | now exists held | reflexivity].
  - reflexivity.
Qed.

(** C1 (counterexample). The revision id 0 is a number, not [null]; yet a
    component mounted with it selected never does the instant scroll. *)
Lemma auto_scroll_skips_revision_0 :
  Id 0 <> Null /\ Id 0 <> Undefined
  /\ exists this' log,
       React.mount true 2 sample_container (new_instance (sample_props (Id 0)))
       = Done this' log
       /\ instant_scrolls log = [].
Proof.
  split; [discriminate|]. split; [discriminate|].
  eexists. eexists. split; reflexivity.
Qed.

(** C1 (amended). Mount the component with revision [r] selected and let
    anything happen while [r] stays selected (scroll events, resizes, hint
    clicks, DOM changes, new props with the same revision).  If [r] is truthy
    (a number other than 0) there is exactly one instant scroll, done at
    mount and centred on the first change offset read off the container (on
    offset 0 when there is none, which is position 0 for a viewport height
    that is not negative), and none afterwards; if [r] is falsy there is
    none at all.  A later change to a truthy revision other than the one
    last scrolled to does exactly one instant scroll again.  Whenever the
    selected revision is falsy or is the one last scrolled to,
    [tryScrollingToFirstChangeOrTop] does nothing. *)
Theorem auto_scroll_exactly_once
        (window_defined : bool) (fuel : nat) (p : Props)
        (container : DOM.element) (evs : list React.event) :
  Forall (keeps_revision (selectedRevisionId p)) evs ->
  exists mounted mount_log this' log,
    React.mount window_defined (S fuel) container (new_instance p)
    = Done mounted mount_log
    /\ React.run (S fuel) evs mounted = Done this' log
    /\ instant_scrolls log = []
    /\ (revision_id_truthy (selectedRevisionId p) = true ->
        lastScolledRevisionId this' = selectedRevisionId p
        /\ exists t,
             instant_scrolls mount_log = [JS.Fin t]
             /\ t == spec_center_target (hd 0 (located container))
                                        (measured_height container)
             /\ (located container = [] -> 0 <= measured_height container -> t == 0))
    /\ (revision_id_truthy (selectedRevisionId p) = false ->
        lastScolledRevisionId this' = Null
        /\ instant_scrolls mount_log = [])
    /\ (forall nextProps dom,
          revision_id_truthy (selectedRevisionId nextProps) = true ->
          selectedRevisionId nextProps <> lastScolledRevisionId this' ->
          exists this'' t',
            React.receiveProps (S fuel) nextProps dom this'
            = Done this'' [SetScrollTop (JS.Fin t')]
            /\ t' == spec_center_target (hd 0 (located dom)) (measured_height dom))
    /\ (forall this0,
          revision_id_truthy (selectedRevisionId (props this0)) = false
          \/ selectedRevisionId (props this0) = lastScolledRevisionId this0 ->
          tryScrollingToFirstChangeOrTop this0 = Done this0 []).
Proof.
  intros Hk.
  assert (M : exists l mounted mount_log,
             React.mount window_defined (S fuel) container (new_instance p)
             = Done mounted mount_log
             /\ at_rest (selectedRevisionId p) l mounted
             /\ (revision_id_truthy (selectedRevisionId p) = true ->
                 l = selectedRevisionId p
                 /\ instant_scrolls mount_log = [auto_scroll_target container])
             /\ (revision_id_truthy (selectedRevisionId p) = false ->
                 l = Null /\ instant_scrolls mount_log = [])).
  { destruct (revision_id_truthy (selectedRevisionId p)) eqn:Ht.
    - destruct (mount_scrolls window_defined fuel p container Ht)
        as (mounted & mount_log & Hm & Hr & _ & Hi).
      exists (selectedRevisionId p), mounted, mount_log.
      split; [exact Hm|]. split; [exact Hr|].
      split; [intros _; now split | discriminate].
    - destruct (mount_idle window_defined (S fuel) p container Ht)
        as (mounted & mount_log & Hm & Hr & Hi).
      exists Null, mounted, mount_log.
      split; [exact Hm|]. split; [exact Hr|].
      split; [discriminate | intros _; now split]. }
  destruct M as (l & mounted & mount_log & Hm & Hr & HT & HF).
  destruct (run_at_rest fuel _ l evs mounted Hr Hk) as (this' & log & Hrun & Hr' & Hi').
  assert (Hl : lastScolledRevisionId this' = l) by apply Hr'.
  exists mounted, mount_log, this', log.
  split; [exact Hm|]. split; [exact Hrun|]. split; [exact Hi'|].
  split; [|split; [|split]].
  - intros Ht. destruct (HT Ht) as [El Hi]. split; [congruence|].
    destruct (auto_scroll_target_spec container) as (t & Et & Heq & _).
    exists t. split; [now rewrite Hi, Et|]. split; [exact Heq|].
    intros E Hh. rewrite Heq, E. unfold spec_center_target. cbn [hd].
    apply Q.max_l.
    assert (0 <= measured_height container * / 2)
      by (apply Qmult_le_0_compat; [assumption | discriminate]).
    unfold Qdiv. lra.
  - intros Hf. destruct (HF Hf) as [El Hi]. split; [congruence | exact Hi].
  - intros nextProps dom Ht' Hne. rewrite Hl in Hne.
    destruct (receiveProps_scrolls fuel _ l nextProps dom this' Hr' Ht' Hne)
      as (this'' & Hrp & _).
    destruct (auto_scroll_target_spec dom) as (t' & Et' & Heq' & _).
    exists this'', t'. split; [now rewrite Hrp, Et' | exact Heq'].
  - intros this0. apply tryScrolling_settled.
Qed.

Lemma sample_events_keep_7 : Forall (keeps_revision (Id 7)) sample_events.
Proof. repeat constructor. Defined.

Lemma auto_scroll_exactly_once_witness :
  Forall (keeps_revision (selectedRevisionId (sample_props (Id 7)))) sample_events
  /\ exists mounted mount_log this' log t,
       React.mount true 2 sample_container (new_instance (sample_props (Id 7)))
       = Done mounted mount_log
       /\ instant_scrolls mount_log = [JS.Fin t]
       /\ t == 410
       /\ React.run 2 sample_events mounted = Done this' log
       /\ instant_scrolls log = [].
Proof.
  split; [exact sample_events_keep_7|].
  destruct (auto_scroll_exactly_once true 1 (sample_props (Id 7)) sample_container
              sample_events sample_events_keep_7)
    as (mounted & mount_log & this' & log & Hm & Hrun & Hi' & HT & _).
  destruct (HT eq_refl) as (_ & t & Hi & Heq & _).
  exists mounted, mount_log, this', log, t.
  split; [exact Hm|]. split; [exact Hi|]. split.
  - rewrite Heq. reflexivity.
  - split; assumption.
Defined.

(** ** Invalidation *)

Lemma merge_clear (s : State) :
  merge s (partialState clear_update)
  = {| changeOffsets := []; scrollTop := scrollTop s; viewportHeight := viewportHeight s |}.
Proof. reflexivity. Qed.

(** Queued updates decide [scrollTop] and [viewportHeight] without looking
    at the change offsets of the state they are merged into. *)
Lemma fold_merge_frame (q : list Update) (s s' : State) :
  scrollTop s = scrollTop s' -> viewportHeight s = viewportHeight s' ->
  scrollTop (fold_left (fun s u => merge s (partialState u)) q s)
  = scrollTop (fold_left (fun s u => merge s (partialState u)) q s')
  /\ viewportHeight (fold_left (fun s u => merge s (partialState u)) q s)
     = viewportHeight (fold_left (fun s u => merge s (partialState u)) q s').
Proof.
  revert s s'. induction q as [|u q IH]; intros s s' Ht Hh; [now split|].
  cbn [fold_left]. apply IH; unfold merge; cbn [scrollTop viewportHeight];
    [now rewrite Ht | now rewrite Hh].
Qed.

Lemma fold_merge_clear_stale (q : list Update) (s : State) (offsets : list Q) :
  fold_left (fun s u => merge s (partialState u)) (q ++ [clear_update])
    {| changeOffsets := offsets; scrollTop := scrollTop s;
       viewportHeight := viewportHeight s |}
  = fold_left (fun s u => merge s (partialState u)) (q ++ [clear_update]) s.
Proof.
  rewrite !fold_left_app. cbn [fold_left]. rewrite !merge_clear.
  destruct (fold_merge_frame q
              {| changeOffsets := offsets; scrollTop := scrollTop s;
                 viewportHeight := viewportHeight s |} s eq_refl eq_refl) as [Ht Hh].
  now rewrite Ht, Hh.
Qed.

Lemma rendered_after_change_empty (nextProps : Props) (this : Instance) :
  changeOffsets (state (rendered_after_change nextProps this)) = []
  /\ changesAboveViewport (rendered_after_change nextProps this) = []
  /\ changesBelowViewport (rendered_after_change nextProps this) = [].
Proof.
  assert (E : changeOffsets (state (rendered_after_change nextProps this)) = []).
  { unfold rendered_after_change. rewrite applied_state, fold_left_app.
    reflexivity. }
  split; [exact E|].
  unfold rendered_after_change, applied in *.
  cbn [render fst changesAboveViewport changesBelowViewport with_changes state] in *.
  rewrite E. split; reflexivity.
Qed.

Lemma rendered_after_change_stale
      (nextProps : Props) (this : Instance) (offsets above below : list Q) :
  rendered_after_change nextProps (with_stale_offsets offsets above below this)
  = rendered_after_change nextProps this.
Proof.
  unfold rendered_after_change, applied, render.
  cbn [fst state with_props enqueue with_updateQueue with_state with_changes
       with_stale_offsets updateQueue props node lastScolledRevisionId].
  rewrite fold_merge_clear_stale. reflexivity.
Qed.

(** A revision change, split at the end of [render]. *)
Lemma receiveProps_changed (fuel : nat) (nextProps : Props) (dom : DOM.element)
      (this : Instance) :
  selectedRevisionId nextProps <> selectedRevisionId (props this) ->
  React.receiveProps fuel nextProps dom this
  = (React.domChange dom ;; componentDidUpdate ;;
     React.run_callbacks (updateQueue this ++ [clear_update]) ;; React.flush fuel)
      (rendered_after_change nextProps this).
Proof.
  intros Hne. unfold React.receiveProps.
  rewrite (seq_quiet _ _ this (enqueue clear_update this))
    by now apply componentWillReceiveProps_changed.
  rewrite seq_modify. unfold React.commitWork, React.processUpdateQueue, React.callRender.
  rewrite !seq_modify. reflexivity.
Qed.

(** C2. Invalidation law: on a change of the selected revision,
    [componentWillReceiveProps] queues the clearing of the change offsets;
    the instance [render] leaves, on which everything that follows in the
    update runs, has no change offset in its state and none in the sets
    saved for the hint handlers; the whole update, result and calls made,
    is the same whatever offsets the state and the saved sets held before
    the change; and when the component was at rest and the new revision
    is truthy and not the one last scrolled to, the one scroll of the
    update goes to the target computed from the offsets and the height read
    off the container as it is after the change, which are then the
    state. *)
Theorem invalidation_law (fuel : nat) (this : Instance) (nextProps : Props)
        (dom : DOM.element) :
  selectedRevisionId nextProps <> selectedRevisionId (props this) ->
  componentWillReceiveProps nextProps this = Done (enqueue clear_update this) []
  /\ (forall s, merge s (partialState clear_update)
                = {| changeOffsets := []; scrollTop := scrollTop s;
                     viewportHeight := viewportHeight s |})
  /\ React.receiveProps fuel nextProps dom this
     = (React.domChange dom ;; componentDidUpdate ;;
        React.run_callbacks (updateQueue this ++ [clear_update]) ;; React.flush fuel)
         (rendered_after_change nextProps this)
  /\ changeOffsets (state (rendered_after_change nextProps this)) = []
  /\ changesAboveViewport (rendered_after_change nextProps this) = []
  /\ changesBelowViewport (rendered_after_change nextProps this) = []
  /\ (forall offsets above below,
        React.receiveProps fuel nextProps dom (with_stale_offsets offsets above below this)
        = React.receiveProps fuel nextProps dom this)
  /\ (at_rest (selectedRevisionId (props this)) (lastScolledRevisionId this) this ->
      revision_id_truthy (selectedRevisionId nextProps) = true ->
      selectedRevisionId nextProps <> lastScolledRevisionId this ->
      exists this',
        React.receiveProps (S fuel) nextProps dom this
        = Done this' [SetScrollTop (auto_scroll_target dom)]
        /\ changeOffsets (state this') = located dom
        /\ viewportHeight (state this') = measured_height dom).
Proof.
  intros Hne.
  split; [now apply componentWillReceiveProps_changed|].
  split; [exact merge_clear|].
  split; [now apply receiveProps_changed|].
  destruct (rendered_after_change_empty nextProps this) as (E1 & E2 & E3).
  split; [exact E1|]. split; [exact E2|]. split; [exact E3|].
  split.
  - intros offsets above below.
    rewrite !receiveProps_changed by exact Hne.
    rewrite rendered_after_change_stale. reflexivity.
  - intros Hr Ht Hnl.
    destruct (receiveProps_scrolls fuel _ _ nextProps dom this Hr Ht Hnl)
      as (this' & Hrp & _ & Hst).
    exists this'. split; [exact Hrp|]. now rewrite Hst.
Qed.

Lemma invalidation_law_witness :
  selectedRevisionId (sample_props (Id 8)) <> selectedRevisionId (props showing_7)
  /\ React.receiveProps 2 (sample_props (Id 8)) sample_container
       (with_stale_offsets [1; 2; 3] [1] [3] showing_7)
     = React.receiveProps 2 (sample_props (Id 8)) sample_container showing_7.
Proof.
  assert (H : selectedRevisionId (sample_props (Id 8))
              <> selectedRevisionId (props showing_7)) by discriminate.
  split; [exact H|].
  destruct (invalidation_law 2 showing_7 (sample_props (Id 8)) sample_container H)
    as (_ & _ & _ & _ & _ & _ & Hstale & _).
  apply Hstale.
Defined.

(** * Further properties *)

(** ** Sequencing and invariants *)

Lemma seq_inv (m1 m2 : method) (this this' : Instance) (log : list effect) :
  (m1 ;; m2) this = Done this' log ->
  exists this1 log1 log2,
    m1 this = Done this1 log1 /\ m2 this1 = Done this' log2 /\ log = log1 ++ log2.
Proof.
  unfold seq. destruct (m1 this) as [this1 log1| |] eqn:E1; try discriminate.
  destruct (m2 this1) as [this2 log2| |] eqn:E2; try discriminate.
  intros H. inversion H; subst. exists this1, log1, log2. now rewrite E2.
Qed.

Lemma preserves_seq (P : Instance -> Prop) (m1 m2 : method) :
  preserves P m1 -> preserves P m2 -> preserves P (m1 ;; m2).
Proof.
  intros H1 H2 this this' log HP H.
  apply seq_inv in H. destruct H as (this1 & log1 & log2 & E1 & E2 & _).
  eapply H2; [|exact E2]. eapply H1; [exact HP | exact E1].
Qed.

Lemma preserves_modify (P : Instance -> Prop) (f : Instance -> Instance) :
  (forall this, P this -> P (f this)) -> preserves P (modify f).
Proof. intros Hf this this' log HP H. inversion H; subst. now apply Hf. Qed.

Lemma preserves_ret (P : Instance -> Prop) : preserves P ret.
Proof. intros this this' log HP H. now inversion H; subst. Qed.

Lemma preserves_emit (P : Instance -> Prop) (e : effect) : preserves P (emit e).
Proof. intros this this' log HP H. now inversion H; subst. Qed.

Lemma fresh_render (this : Instance) : fresh (fst (render this)).
Proof. split; reflexivity. Qed.

Lemma fresh_dom_step (dom : DOM.element) (this : Instance) :
  fresh this -> fresh (dom_step dom this).
Proof. unfold dom_step. now destruct (node this). Qed.

Lemma tryScrolling_fresh : preserves fresh tryScrollingToFirstChangeOrTop.
Proof.
  intros this this' log HP. unfold tryScrollingToFirstChangeOrTop.
  destruct (_ || _); [intros H; now inversion H; subst|].
  rewrite seq_modify. unfold recomputeChanges.
  cbn [node with_lastScolledRevisionId]. destruct (node this); [|discriminate].
  intros H. inversion H; subst. exact HP.
Qed.

Lemma run_callback_same (cb : Callback) (this this' : Instance) (log : list effect) :
  run_callback cb this = Done this' log -> this' = this.
Proof.
  destruct cb; cbn [run_callback]; [intros H; now inversion H|].
  unfold centerOnFirstChangeOrTop, centerScrollingOnOffset. cbn [negb].
  destruct (node this); [|discriminate]. intros H. now inversion H.
Qed.

Lemma run_callbacks_same (q : list Update) (this this' : Instance) (log : list effect) :
  React.run_callbacks q this = Done this' log -> this' = this.
Proof.
  revert this this' log. induction q as [|u q IH]; intros this this' log.
  - intros H. now inversion H.
  - cbn [React.run_callbacks]. intros H. apply seq_inv in H.
    destruct H as (this1 & log1 & log2 & E1 & E2 & _).
    apply run_callback_same in E1. subst this1. now apply IH in E2.
Qed.

(** A round of React ends with fresh sets, whatever it started from. *)
Lemma commitWork_fresh (g : Instance -> Instance) (next : method) :
  (forall x, fresh x -> fresh (g x)) -> preserves fresh next ->
  forall this this' log,
    React.commitWork (modify g) next this = Done this' log -> fresh this'.
Proof.
  intros Hg Hnext this this' log. unfold React.commitWork, React.processUpdateQueue,
    React.callRender.
  rewrite !seq_modify. intros H.
  apply seq_inv in H. destruct H as (this1 & log1 & log2 & E1 & E2 & _).
  apply seq_inv in E2. destruct E2 as (this2 & log3 & log4 & E2 & E3 & _).
  apply run_callbacks_same in E2. subst this2.
  eapply Hnext; [|exact E3].
  eapply tryScrolling_fresh; [|exact E1].
  apply Hg. apply fresh_render.
Qed.

Lemma flush_fresh (fuel : nat) : preserves fresh (React.flush fuel).
Proof.
  induction fuel as [|fuel IH]; intros this this' log HP; cbn [React.flush];
    destruct (updateQueue this) eqn:E; try discriminate;
    try (intros H; now inversion H; subst).
  change ret with (modify (fun x : Instance => x)).
  apply (commitWork_fresh (fun x => x) _ (fun _ h => h) IH).
Qed.

Lemma hint_handlers_same (this this' : Instance) (log : list effect) :
  (scrollAbove this = Done this' log \/ scrollBelow this = Done this' log) ->
  this' = this.
Proof.
  unfold scrollAbove, scrollBelow, seq, centerScrollingOnOffset. cbn [negb emit].
  intros [H|H]; now inversion H.
Qed.

(** Every event leaves the saved sets fresh. *)
Lemma dispatch_fresh (fuel : nat) (ev : React.event) :
  preserves fresh (React.dispatch fuel ev).
Proof.
  destruct ev as [e| | | |nextProps dom|dom]; cbn [React.dispatch].
  - apply preserves_seq; [|apply flush_fresh].
    apply preserves_modify. intros this H. exact H.
  - apply preserves_seq; [|apply flush_fresh].
    intros this this' log HP. unfold recomputeChanges.
    destruct (node this); [|discriminate]. intros H. inversion H; subst. exact HP.
  - apply preserves_seq; [|apply flush_fresh].
    intros this this' log HP. unfold React.clickHintAbove.
    destruct (hint_above _); intros H.
    + assert (this' = this) by (apply (hint_handlers_same this this' log); now left).
      now subst.
    + now inversion H; subst.
  - apply preserves_seq; [|apply flush_fresh].
    intros this this' log HP. unfold React.clickHintBelow.
    destruct (hint_below _); intros H.
    + assert (this' = this) by (apply (hint_handlers_same this this' log); now right).
      now subst.
    + now inversion H; subst.
  - intros this this' log _. unfold React.receiveProps. intros H.
    apply seq_inv in H. destruct H as (this1 & log1 & log2 & _ & H & _).
    rewrite seq_modify in H.
    change (React.domChange dom) with (modify (dom_step dom)) in H.
    apply (commitWork_fresh (dom_step dom) _ (fresh_dom_step dom) (flush_fresh fuel)) in H.
    exact H.
  - apply preserves_modify. apply fresh_dom_step.
Qed.

(** ** What events call *)

Lemma emits_only_seq (ok : effect -> bool) (m1 m2 : method) :
  emits_only ok m1 -> emits_only ok m2 -> emits_only ok (m1 ;; m2).
Proof.
  intros H1 H2 this this' log H.
  apply seq_inv in H. destruct H as (this1 & log1 & log2 & E1 & E2 & ->).
  rewrite forallb_app, (H1 _ _ _ E1), (H2 _ _ _ E2). reflexivity.
Qed.

Lemma emits_only_modify (ok : effect -> bool) (f : Instance -> Instance) :
  emits_only ok (modify f).
Proof. intros this this' log H. now inversion H. Qed.

Lemma emits_only_ret (ok : effect -> bool) : emits_only ok ret.
Proof. intros this this' log H. now inversion H. Qed.

Lemma tryScrolling_silent (ok : effect -> bool) :
  emits_only ok tryScrollingToFirstChangeOrTop.
Proof.
  intros this this' log. unfold tryScrollingToFirstChangeOrTop.
  destruct (_ || _); [intros H; now inversion H|].
  rewrite seq_modify. unfold recomputeChanges.
  cbn [node with_lastScolledRevisionId]. destruct (node this); [|discriminate].
  intros H. now inversion H.
Qed.

Lemma run_callbacks_no_listener (q : list Update) :
  emits_only not_listener_call (React.run_callbacks q).
Proof.
  induction q as [|u q IH]; [apply emits_only_ret|].
  cbn [React.run_callbacks]. apply emits_only_seq; [|exact IH].
  intros this this' log. destruct (callback u); cbn [run_callback].
  - intros H. now inversion H.
  - unfold centerOnFirstChangeOrTop, centerScrollingOnOffset. cbn [negb].
    destruct (node this); [|discriminate]. intros H. now inversion H.
Qed.

Lemma commitWork_no_listener (g : Instance -> Instance) (next : method) :
  emits_only not_listener_call next ->
  emits_only not_listener_call (React.commitWork (modify g) next).
Proof.
  intros Hnext this this' log. unfold React.commitWork.
  apply (emits_only_seq _ _ _ (emits_only_modify _ _)).
  apply (emits_only_seq _ _ _ (emits_only_modify _ _)).
  apply (emits_only_seq _ _ _ (emits_only_modify _ _)).
  apply (emits_only_seq _ _ _ (tryScrolling_silent _)).
  apply (emits_only_seq _ _ _ (run_callbacks_no_listener _)).
  exact Hnext.
Qed.

Lemma flush_no_listener (fuel : nat) : emits_only not_listener_call (React.flush fuel).
Proof.
  induction fuel as [|fuel IH]; intros this this' log; cbn [React.flush];
    destruct (updateQueue this) eqn:E; try discriminate;
    try (intros H; now inversion H).
  change ret with (modify (fun x : Instance => x)).
  now apply commitWork_no_listener.
Qed.

(** No event registers or removes a listener. *)
Lemma dispatch_no_listener (fuel : nat) (ev : React.event) :
  emits_only not_listener_call (React.dispatch fuel ev).
Proof.
  destruct ev as [e| | | |nextProps dom|dom]; cbn [React.dispatch].
  - apply emits_only_seq; [apply emits_only_modify | apply flush_no_listener].
  - apply emits_only_seq; [|apply flush_no_listener].
    intros this this' log. unfold recomputeChanges.
    destruct (node this); [|discriminate]. intros H. now inversion H.
  - apply emits_only_seq; [|apply flush_no_listener].
    intros this this' log. unfold React.clickHintAbove.
    destruct (hint_above _); [|intros H; now inversion H].
    unfold scrollAbove, seq, centerScrollingOnOffset. cbn [negb emit].
    intros H. now inversion H.
  - apply emits_only_seq; [|apply flush_no_listener].
    intros this this' log. unfold React.clickHintBelow.
    destruct (hint_below _); [|intros H; now inversion H].
    unfold scrollBelow, seq, centerScrollingOnOffset. cbn [negb emit].
    intros H. now inversion H.
  - unfold React.receiveProps. apply emits_only_seq.
    + intros this this' log. unfold componentWillReceiveProps.
      destruct (negb _); intros H; now inversion H.
    + apply emits_only_seq; [apply emits_only_modify|].
      change (React.domChange dom) with (modify (dom_step dom)).
      apply commitWork_no_listener. apply flush_no_listener.
  - apply emits_only_modify.
Qed.

Lemma no_listener_calls (log : list effect) :
  forallb not_listener_call log = true -> listener_calls log = [].
Proof.
  unfold listener_calls, not_listener_call.
  induction log as [|e log IH]; [reflexivity|].
  cbn [forallb filter]. intros H. apply andb_true_iff in H. destruct H as [He Hl].
  destruct (is_listener_call e); [discriminate | now apply IH].
Qed.

(** ** Any sequence of events on a mounted component *)

Section MountedTraces.

Variable fuel : nat.

(** A change of revision for which no scroll is due: the offsets are
    cleared and nothing more happens. *)
Lemma receiveProps_cleared (r l : revision_id) (nextProps : Props) (dom : DOM.element)
      (this : Instance) :
  at_rest r l this ->
  selectedRevisionId nextProps <> r ->
  scroll_due (selectedRevisionId nextProps) l = false ->
  React.receiveProps (S fuel) nextProps dom this
  = Done (dom_step dom (applied [clear_update] (with_props nextProps this))) []
  /\ at_rest (selectedRevisionId nextProps) l
       (dom_step dom (applied [clear_update] (with_props nextProps this))).
Proof.
  intros (Hp & Hl & Hrl & Hn & Hq) Hne Hdue.
  assert (Hs : revision_id_truthy (selectedRevisionId nextProps) = false
               \/ selectedRevisionId nextProps = l).
  { unfold scroll_due in Hdue. apply andb_false_iff in Hdue.
    destruct Hdue as [F|E]; [now left | right].
    apply negb_false_iff, revision_id_eqb_eq in E. exact E. }
  set (this1 := with_props nextProps (enqueue clear_update this)).
  assert (Q1 : updateQueue this1 = [clear_update]).
  { cbn [this1 updateQueue with_props enqueue with_updateQueue]. now rewrite Hq. }
  split.
  - unfold React.receiveProps.
    rewrite (seq_quiet _ _ this (enqueue clear_update this))
      by (apply componentWillReceiveProps_changed; congruence).
    rewrite seq_modify. fold this1.
    change (React.domChange dom) with (modify (dom_step dom)).
    rewrite commitWork_settled;
      [| apply dom_step_props | apply dom_step_last
       | destruct Hs; [left | right];
         cbn [this1 props with_props lastScolledRevisionId enqueue with_updateQueue];
         congruence].
    rewrite Q1. cbn [React.run_callbacks]. rewrite (seq_quiet _ _ _ _ eq_refl).
    apply flush_idle. now rewrite dom_step_queue.
  - apply at_rest_dom_step.
    apply at_rest_applied; [reflexivity | exact Hl | exact Hs | exact Hn].
Qed.

Lemma scroll_due_at_rest (r l : revision_id) (this : Instance) :
  at_rest r l this -> scroll_due r l = false.
Proof.
  intros (_ & _ & [F|E] & _); unfold scroll_due.
  - now rewrite F.
  - rewrite E, revision_id_eqb_refl. apply andb_false_r.
Qed.

(** One event on a component at rest: it returns, the component is at rest
    again, and the instant scrolls made are the ones due. *)
Lemma dispatch_mounted (r l : revision_id) (ev : React.event) (this : Instance) :
  at_rest r l this ->
  exists r' this' log,
    React.dispatch (S fuel) ev this = Done this' log
    /\ at_rest r' (last_after l ev) this'
    /\ instant_scrolls log = due_scroll l ev.
Proof.
  intros Hr.
  assert (K : keeps_revision r ev ->
              last_after l ev = l ->
              due_scroll l ev = [] ->
              exists r' this' log,
                React.dispatch (S fuel) ev this = Done this' log
                /\ at_rest r' (last_after l ev) this'
                /\ instant_scrolls log = due_scroll l ev).
  { intros Hk El Ed.
    destruct (dispatch_at_rest fuel r l ev this Hr Hk) as (this' & log & H & Hr' & Hi).
    exists r, this', log. rewrite El, Ed.
    split; [exact H|]. split; [exact Hr' | exact Hi]. }
  destruct ev as [e| | | |nextProps dom|dom]; try (apply K; [exact I | reflexivity..]).
  destruct (revision_id_eqb (selectedRevisionId nextProps) r) eqn:Er.
  - apply revision_id_eqb_eq in Er.
    pose proof (scroll_due_at_rest r l this Hr) as Hd. rewrite <- Er in Hd.
    apply K; [exact Er | |]; cbn [last_after due_scroll]; now rewrite Hd.
  - apply revision_id_eqb_neq in Er. cbn [last_after due_scroll React.dispatch].
    destruct (scroll_due (selectedRevisionId nextProps) l) eqn:Hd.
    + unfold scroll_due in Hd. apply andb_true_iff in Hd. destruct Hd as [Ht Hne].
      apply negb_true_iff, revision_id_eqb_neq in Hne.
      destruct (receiveProps_scrolls fuel r l nextProps dom this Hr Ht Hne)
        as (this' & H & Hr' & _).
      exists (selectedRevisionId nextProps), this', [SetScrollTop (auto_scroll_target dom)].
      split; [exact H|]. split; [exact Hr' | reflexivity].
    + destruct (receiveProps_cleared r l nextProps dom this Hr Er Hd) as (H & Hr').
      eexists. eexists. exists []. split; [exact H|]. split; [exact Hr' | reflexivity].
Qed.

Lemma run_mounted (evs : list React.event) (r l : revision_id) (this : Instance) :
  at_rest r l this ->
  exists r' this' log,
    React.run (S fuel) evs this = Done this' log
    /\ at_rest r' (fold_left last_after evs l) this'
    /\ instant_scrolls log = due_scrolls l evs.
Proof.
  revert r l this. induction evs as [|ev evs IH]; intros r l this Hr.
  - exists r, this, []. split; [reflexivity|]. split; [exact Hr | reflexivity].
  - destruct (dispatch_mounted r l ev this Hr) as (r1 & this1 & log1 & H1 & Hr1 & Hi1).
    destruct (IH r1 (last_after l ev) this1 Hr1) as (r2 & this2 & log2 & H2 & Hr2 & Hi2).
    exists r2, this2, (log1 ++ log2). split; [|split].
    + cbn [React.run]. exact (seq_done _ _ _ _ _ _ _ H1 H2).
    + exact Hr2.
    + rewrite instant_scrolls_app, Hi1, Hi2. reflexivity.
Qed.

End MountedTraces.

(** ** The life of a mounted component *)

Lemma listener_calls_app (l1 l2 : list effect) :
  listener_calls (l1 ++ l2) = listener_calls l1 ++ listener_calls l2.
Proof. apply filter_app. Qed.

Lemma componentDidMount_inv (window_defined : bool) (this this' : Instance)
      (log : list effect) :
  componentDidMount window_defined this = Done this' log ->
  (fresh this -> fresh this')
  /\ listener_calls log = if window_defined then [WindowAddResizeListener] else [].
Proof.
  unfold componentDidMount. intros H.
  apply seq_inv in H. destruct H as (this1 & log1 & log2 & E1 & E2 & ->).
  pose proof (tryScrolling_silent not_listener_call _ _ _ E1) as S1.
  apply no_listener_calls in S1. rewrite listener_calls_app, S1.
  split.
  - intros F. apply (tryScrolling_fresh this this1 log1 F) in E1.
    destruct window_defined; inversion E2; now subst.
  - destruct window_defined; inversion E2; reflexivity.
Qed.

(** Mounting: what it registers, and the sets it leaves. *)
Lemma mount_inv (window_defined : bool) (fuel : nat) (container : DOM.element)
      (this this' : Instance) (log : list effect) :
  React.mount window_defined fuel container this = Done this' log ->
  fresh this'
  /\ listener_calls log
     = NodeAddScrollListener container
       :: (if window_defined then [WindowAddResizeListener] else []).
Proof.
  unfold React.mount, React.callRender. rewrite seq_modify. intros H.
  apply seq_inv in H. destruct H as (this1 & log1 & log2 & E1 & H & ->).
  apply seq_inv in H. destruct H as (this2 & log3 & log4 & E2 & E3 & ->).
  cbn [handleScrollableRef] in E1. rewrite seq_modify in E1. inversion E1; subst.
  destruct (componentDidMount_inv _ _ _ _ E2) as [F2 L2].
  pose proof (flush_no_listener fuel _ _ _ E3) as L3. apply no_listener_calls in L3.
  split.
  - apply (flush_fresh fuel this2 this' log4); [|exact E3].
    apply F2. apply (fresh_render this).
  - rewrite !listener_calls_app, L2, L3, app_nil_r. reflexivity.
Qed.

Lemma mount_at_rest (window_defined : bool) (fuel : nat) (p : Props)
      (container : DOM.element) :
  exists this' log,
    React.mount window_defined (S fuel) container (new_instance p) = Done this' log
    /\ at_rest (selectedRevisionId p)
         (last_after Null (React.ReceiveProps p container)) this'
    /\ instant_scrolls log = due_scroll Null (React.ReceiveProps p container).
Proof.
  cbn [last_after due_scroll]. unfold scroll_due.
  destruct (revision_id_truthy (selectedRevisionId p)) eqn:Ht.
  - destruct (mount_scrolls window_defined fuel p container Ht)
      as (this' & log & Hm & Hr & _ & Hi).
    assert (E : revision_id_eqb (selectedRevisionId p) Null = false).
    { apply revision_id_eqb_neq. now apply truthy_not_Null. }
    rewrite E. exists this', log. now split.
  - destruct (mount_idle window_defined (S fuel) p container Ht)
      as (this' & log & Hm & Hr & Hi).
    exists this', log. now split.
Qed.

Lemma last_after_ok (l : revision_id) (ev : React.event) :
  l = Null \/ revision_id_truthy l = true ->
  last_after l ev = Null \/ revision_id_truthy (last_after l ev) = true.
Proof.
  intros H. destruct ev; cbn [last_after]; try exact H.
  destruct (scroll_due _ _) eqn:E; [|exact H].
  right. unfold scroll_due in E. now apply andb_true_iff in E.
Qed.

Lemma fold_last_after_ok (evs : list React.event) (l : revision_id) :
  l = Null \/ revision_id_truthy l = true ->
  fold_left last_after evs l = Null
  \/ revision_id_truthy (fold_left last_after evs l) = true.
Proof.
  revert l. induction evs as [|ev evs IH]; intros l H; [exact H|].
  cbn [fold_left]. apply IH. now apply last_after_ok.
Qed.

Lemma run_fresh (fuel : nat) (evs : list React.event) : preserves fresh (React.run fuel evs).
Proof.
  induction evs as [|ev evs IH]; cbn [React.run]; [apply preserves_ret|].
  apply preserves_seq; [apply dispatch_fresh | exact IH].
Qed.

Lemma run_no_listener (fuel : nat) (evs : list React.event) :
  emits_only not_listener_call (React.run fuel evs).
Proof.
  induction evs as [|ev evs IH]; cbn [React.run]; [apply emits_only_ret|].
  apply emits_only_seq; [apply dispatch_no_listener | exact IH].
Qed.

(** X1. A mounted component never throws and always comes to rest: from a
    new instance, mounting and then any sequence of events (scroll events,
    resizes, hint clicks, DOM changes, new props with any revision) returns;
    afterwards the container is still held, no state update is queued, no
    auto-scroll is pending, the sets saved for the hint handlers are those
    of the state, and the remembered revision is [null] or truthy. *)
Theorem mounted_component_comes_to_rest
        (window_defined : bool) (fuel : nat) (p : Props)
        (container : DOM.element) (evs : list React.event) :
  exists mounted mount_log this' log,
    React.mount window_defined (S fuel) container (new_instance p)
    = Done mounted mount_log
    /\ React.run (S fuel) evs mounted = Done this' log
    /\ (exists held, node this' = Some held)
    /\ updateQueue this' = []
    /\ settled this'
    /\ fresh this'
    /\ (lastScolledRevisionId this' = Null
        \/ revision_id_truthy (lastScolledRevisionId this') = true).
Proof.
  destruct (mount_at_rest window_defined fuel p container)
    as (mounted & mount_log & Hm & Hr & _).
  destruct (run_mounted fuel evs _ _ mounted Hr) as (r' & this' & log & Hrun & Hr' & _).
  exists mounted, mount_log, this', log.
  split; [exact Hm|]. split; [exact Hrun|].
  pose proof (at_rest_settled _ _ _ Hr') as Hs.
  destruct Hr' as (_ & Hl & _ & Hn & Hq).
  split; [exact Hn|]. split; [exact Hq|]. split; [exact Hs|]. split.
  - apply (run_fresh (S fuel) evs mounted this' log); [|exact Hrun].
    now apply (mount_inv _ _ _ _ _ _ Hm).
  - rewrite Hl.
    change (fold_left last_after evs (last_after Null (React.ReceiveProps p container)))
      with (fold_left last_after (React.ReceiveProps p container :: evs) Null).
    apply fold_last_after_ok. now left.
Qed.

(** X2. The instant scrolls of a whole life: over mounting and any sequence
    of events, the writes to the container's [scrollTop] are, in order,
    exactly one for each arrival (the mount counting as the first) of a
    truthy revision other than the last one scrolled to, each aimed at the
    target computed from the container of that moment; nothing else ever
    writes [scrollTop]. *)
Theorem instant_scrolls_of_a_life
        (window_defined : bool) (fuel : nat) (p : Props)
        (container : DOM.element) (evs : list React.event) :
  exists this' log,
    (React.mount window_defined (S fuel) container ;; React.run (S fuel) evs)
      (new_instance p)
    = Done this' log
    /\ instant_scrolls log
       = due_scrolls Null (React.ReceiveProps p container :: evs)
    /\ lastScolledRevisionId this'
       = fold_left last_after (React.ReceiveProps p container :: evs) Null.
Proof.
  destruct (mount_at_rest window_defined fuel p container)
    as (mounted & mount_log & Hm & Hr & Hi).
  destruct (run_mounted fuel evs _ _ mounted Hr) as (r' & this' & log & Hrun & Hr' & Hi').
  exists this', (mount_log ++ log).
  split; [exact (seq_done _ _ _ _ _ _ _ Hm Hrun)|]. split.
  - rewrite instant_scrolls_app, Hi, Hi'. reflexivity.
  - now destruct Hr' as (_ & Hl & _).
Qed.

Lemma life_until_unmount
      (window_defined : bool) (fuel : nat) (p : Props)
      (container : DOM.element) (evs : list React.event) :
  exists mounted mount_log rested log held,
    React.mount window_defined (S fuel) container (new_instance p)
    = Done mounted mount_log
    /\ React.run (S fuel) evs mounted = Done rested log
    /\ node rested = Some held
    /\ React.unmount window_defined rested
       = Done (with_node None rested)
           ((if window_defined then [WindowRemoveResizeListener] else [])
            ++ [NodeRemoveScrollListener held]).
Proof.
  destruct (mount_at_rest window_defined fuel p container)
    as (mounted & mount_log & Hm & Hr & _).
  destruct (run_mounted fuel evs _ _ mounted Hr) as (r' & rested & log & Hrun & Hr' & _).
  destruct Hr' as (_ & _ & _ & (held & Hn) & _).
  exists mounted, mount_log, rested, log, held.
  split; [exact Hm|]. split; [exact Hrun|]. split; [exact Hn|].
  unfold React.unmount, componentWillUnmount.
  apply seq_done with (this1 := rested); [now destruct window_defined|].
  unfold handleScrollableRef. rewrite Hn. reflexivity.
Qed.

(** X3. Listener balance over a life: mounting, any sequence of events and
    unmounting return; the listener calls made are, in order, the scroll
    listener added to the container, the resize listener added to and then
    removed from the window (both only where a window exists), and the
    scroll listener removed from the container held; events in between add
    or remove none; afterwards no container is held. *)
Theorem listeners_balanced
        (window_defined : bool) (fuel : nat) (p : Props)
        (container : DOM.element) (evs : list React.event) :
  exists this' log held,
    (React.mount window_defined (S fuel) container ;; React.run (S fuel) evs ;;
     React.unmount window_defined) (new_instance p)
    = Done this' log
    /\ listener_calls log
       = NodeAddScrollListener container
         :: (if window_defined
             then [WindowAddResizeListener; WindowRemoveResizeListener]
             else [])
         ++ [NodeRemoveScrollListener held]
    /\ node this' = None.
Proof.
  destruct (life_until_unmount window_defined fuel p container evs)
    as (mounted & mount_log & rested & log & held & Hm & Hrun & Hn & Hu).
  exists (with_node None rested). eexists. exists held.
  split; [exact (seq_done _ _ _ _ _ _ _ Hm (seq_done _ _ _ _ _ _ _ Hrun Hu))|].
  split; [|reflexivity].
  destruct (mount_inv _ _ _ _ _ _ Hm) as [_ Lm].
  pose proof (run_no_listener (S fuel) evs _ _ _ Hrun) as Lr.
  apply no_listener_calls in Lr.
  rewrite !listener_calls_app, Lm, Lr.
  now destruct window_defined.
Qed.

(** X4. After unmounting: a late call of the scroll handler (the throttled
    wrapper is not cancelled) only queues its update and does not throw; a
    late call of [recomputeChanges] (the debounced wrapper is not cancelled
    either) throws a [TypeError], the container reference being [null]; so
    do the instant scroll and a second call of the ref callback with
    [null]. *)
Theorem late_calls_after_unmount
        (window_defined : bool) (fuel : nat) (p : Props)
        (container : DOM.element) (evs : list React.event) :
  exists this' log,
    (React.mount window_defined (S fuel) container ;; React.run (S fuel) evs ;;
     React.unmount window_defined) (new_instance p)
    = Done this' log
    /\ (forall cb, recomputeChanges cb this' = Threw TypeError)
    /\ (forall offset, centerScrollingOnOffset offset false this' = Threw TypeError)
    /\ (forall e, handleScroll e this' = Done (enqueue (scroll_update e) this') [])
    /\ handleScrollableRef None this' = Threw TypeError.
Proof.
  destruct (life_until_unmount window_defined fuel p container evs)
    as (mounted & mount_log & rested & log & held & Hm & Hrun & Hn & Hu).
  exists (with_node None rested). eexists.
  split; [exact (seq_done _ _ _ _ _ _ _ Hm (seq_done _ _ _ _ _ _ _ Hrun Hu))|].
  repeat split.
Qed.

(** ** Revision changes that do not scroll *)

Lemma hints_none_without_offsets (this : Instance) :
  changeOffsets (state this) = [] ->
  hint_above (snd (render this)) = None /\ hint_below (snd (render this)) = None.
Proof.
  intros E. cbn [render snd hint_above hint_below]. rewrite E. cbn [filter List.length].
  now rewrite andb_false_r.
Qed.

Lemma showing_7_at_rest : at_rest (Id 7) (Id 7) showing_7.
Proof.
  repeat split; try reflexivity; [now right | now exists sample_container].
Defined.

(** X5. Coming back to the revision last scrolled to: when the selection
    goes from a truthy revision to a falsy one and back, the change offsets
    are cleared at each step and never recomputed, and nothing is scrolled;
    the component ends with no offset and no hint, whatever change regions
    the container holds. *)
Theorem reselecting_leaves_no_offsets
        (fuel : nat) (r : revision_id) (this : Instance)
        (away back : Props) (dom1 dom2 : DOM.element) :
  at_rest r r this ->
  revision_id_truthy r = true ->
  revision_id_truthy (selectedRevisionId away) = false ->
  selectedRevisionId back = r ->
  exists this',
    React.run (S fuel) [React.ReceiveProps away dom1; React.ReceiveProps back dom2] this
    = Done this' []
    /\ changeOffsets (state this') = []
    /\ hint_above (snd (render this')) = None
    /\ hint_below (snd (render this')) = None
    /\ node this' = Some dom2
    /\ lastScolledRevisionId this' = r.
Proof.
  intros Hr Ht Hf Hb.
  assert (N1 : selectedRevisionId away <> r) by (intros E; rewrite E in Hf; congruence).
  assert (D1 : scroll_due (selectedRevisionId away) r = false)
    by (unfold scroll_due; now rewrite Hf).
  destruct (receiveProps_cleared fuel r r away dom1 this Hr N1 D1) as (H1 & Hr1).
  set (this1 := dom_step dom1 (applied [clear_update] (with_props away this))) in *.
  assert (N2 : selectedRevisionId back <> selectedRevisionId away) by congruence.
  assert (D2 : scroll_due (selectedRevisionId back) r = false).
  { unfold scroll_due. rewrite Hb, revision_id_eqb_refl. apply andb_false_r. }
  destruct (receiveProps_cleared fuel _ r back dom2 this1 Hr1 N2 D2) as (H2 & Hr2).
  set (this2 := dom_step dom2 (applied [clear_update] (with_props back this1))) in *.
  exists this2.
  assert (E : changeOffsets (state this2) = []).
  { unfold this2. now rewrite dom_step_state. }
  split; [|split; [exact E|]].
  - cbn [React.run React.dispatch].
    exact (seq_done _ _ _ _ _ _ _ H1 (seq_done _ _ _ _ _ _ _ H2 eq_refl)).
  - destruct (hints_none_without_offsets this2 E) as [Ha Hb'].
    split; [exact Ha|]. split; [exact Hb'|]. split.
    + unfold this2. apply dom_step_held. rewrite applied_node. cbn [node with_props].
      destruct Hr1 as (_ & _ & _ & Hn & _). exact Hn.
    + now destruct Hr2 as (_ & Hl & _).
Qed.

Lemma reselecting_leaves_no_offsets_witness :
  at_rest (Id 7) (Id 7) showing_7
  /\ located sample_container <> []
  /\ exists this',
       React.run 1 [React.ReceiveProps no_revision_props sample_container;
                    React.ReceiveProps (sample_props (Id 7)) sample_container]
                 showing_7
       = Done this' []
       /\ changeOffsets (state this') = [].
Proof.
  split; [exact showing_7_at_rest|]. split; [discriminate|].
  destruct (reselecting_leaves_no_offsets 0 (Id 7) showing_7 no_revision_props
              (sample_props (Id 7)) sample_container sample_container
              showing_7_at_rest eq_refl eq_refl eq_refl)
    as (this' & H & E & _).
  exists this'. split; assumption.
Defined.

(** X6. New props with the revision unchanged (a new diff for the same
    revision, say): nothing is cleared, recomputed or scrolled; the state,
    change offsets included, stays as it was although the container now
    held may have its change regions elsewhere. *)
Theorem same_revision_keeps_offsets
        (fuel : nat) (r l : revision_id) (this : Instance)
        (nextProps : Props) (dom : DOM.element) :
  at_rest r l this ->
  selectedRevisionId nextProps = r ->
  exists this',
    React.receiveProps (S fuel) nextProps dom this = Done this' []
    /\ state this' = state this
    /\ props this' = nextProps
    /\ node this' = Some dom
    /\ lastScolledRevisionId this' = l.
Proof.
  intros Hr Hk. pose proof Hr as (Hp & Hl & Hrl & Hn & Hq).
  exists (dom_step dom (applied [] (with_props nextProps this))).
  split; [|split; [|split; [|split]]].
  - unfold React.receiveProps.
    rewrite (seq_quiet _ _ this this)
      by (apply componentWillReceiveProps_same; congruence).
    rewrite seq_modify.
    change (React.domChange dom) with (modify (dom_step dom)).
    rewrite commitWork_settled;
      [| apply dom_step_props | apply dom_step_last
       | destruct Hrl; [left | right];
         cbn [props with_props lastScolledRevisionId]; congruence].
    cbn [updateQueue with_props]. rewrite Hq.
    cbn [React.run_callbacks]. rewrite (seq_quiet _ _ _ _ eq_refl).
    apply flush_idle. now rewrite dom_step_queue.
  - now rewrite dom_step_state.
  - now rewrite dom_step_props.
  - apply dom_step_held. exact Hn.
  - now rewrite dom_step_last.
Qed.

Lemma same_revision_keeps_offsets_witness :
  at_rest (Id 7) (Id 7) showing_7
  /\ located relaid_container <> changeOffsets (state showing_7)
  /\ exists this',
       React.receiveProps 1 (sample_props (Id 7)) relaid_container showing_7
       = Done this' []
       /\ changeOffsets (state this') = changeOffsets (state showing_7).
Proof.
  split; [exact showing_7_at_rest|]. split; [discriminate|].
  destruct (same_revision_keeps_offsets 0 (Id 7) (Id 7) showing_7 (sample_props (Id 7))
              relaid_container showing_7_at_rest eq_refl)
    as (this' & H & E & _).
  exists this'. split; [exact H | now rewrite E].
Defined.

(** ** Resizes *)

(** X7. A resize on a component at rest: the debounced recompute replaces
    the three fields of the state by what it reads off the container held
    (its change offsets, its height, its scroll position), calls nothing
    outside, leaves props, container and remembered revision alone, and a
    second resize with the container unchanged changes nothing more. *)
Theorem resize_refreshes_state
        (fuel : nat) (r l : revision_id) (this : Instance) (container : DOM.element) :
  at_rest r l this ->
  node this = Some container ->
  exists this',
    React.dispatch (S fuel) React.Resize this = Done this' []
    /\ state this' = {| changeOffsets := located container;
                        scrollTop := JS.get (Some container) DOM.scrollTop 0;
                        viewportHeight := measured_height container |}
    /\ props this' = props this
    /\ node this' = Some container
    /\ lastScolledRevisionId this' = lastScolledRevisionId this
    /\ fresh this'
    /\ React.dispatch (S fuel) React.Resize this' = Done this' [].
Proof.
  intros Hr Hn. pose proof (at_rest_settled _ _ _ Hr) as Hs.
  destruct Hr as (Hp & Hl & Hrl & _ & Hq).
  assert (R : forall x, settled x -> node x = Some container -> updateQueue x = [] ->
              React.dispatch (S fuel) React.Resize x
              = Done (applied [recompute_update container NoCallback] x) []).
  { intros x Hsx Hnx Hqx. cbn [React.dispatch].
    rewrite (seq_quiet _ _ x (enqueue (recompute_update container NoCallback) x))
      by now apply recomputeChanges_held.
    assert (Q : updateQueue (enqueue (recompute_update container NoCallback) x)
                = [recompute_update container NoCallback]).
    { unfold enqueue. cbn [updateQueue with_updateQueue]. now rewrite Hqx. }
    rewrite flush_quiet.
    - now rewrite Q.
    - exact Hsx.
    - rewrite Q. repeat constructor.
    - rewrite Q. discriminate. }
  exists (applied [recompute_update container NoCallback] this).
  split; [now apply R|]. split; [reflexivity|]. split; [reflexivity|].
  split; [now rewrite applied_node|]. split; [reflexivity|].
  split; [apply fresh_render|].
  rewrite R; [reflexivity | exact Hs | now rewrite applied_node | reflexivity].
Qed.

Lemma resize_refreshes_state_witness :
  at_rest (Id 7) (Id 7) showing_7
  /\ exists this',
       React.dispatch 1 React.Resize showing_7 = Done this' []
       /\ changeOffsets (state this') = [700 + 20 / 2; 1500 + 21 / 2]
       /\ viewportHeight (state this') = 600.
Proof.
  split; [exact showing_7_at_rest|].
  destruct (resize_refreshes_state 0 (Id 7) (Id 7) showing_7 sample_container
              showing_7_at_rest eq_refl)
    as (this' & H & E & _).
  exists this'. split; [exact H|]. rewrite E. split; reflexivity.
Defined.

(** ** Counting and geometry of the hints *)

Lemma filter_three_way (f g : Q -> bool) (l : list Q) :
  (forall x, f x = true -> g x = false) ->
  (List.length (filter f l)
   + List.length (filter (fun x => negb (f x) && negb (g x)) l)
   + List.length (filter g l) = List.length l)%nat.
Proof.
  intros D. induction l as [|a l IH]; [reflexivity|].
  cbn [filter]. destruct (f a) eqn:Fa.
  - rewrite (D a Fa). cbn [negb andb List.length]. lia.
  - destruct (g a); cbn [negb andb List.length]; lia.
Qed.

Lemma filter_length_lt (f g : Q -> bool) (l : list Q) (x : Q) :
  (forall y, f y = true -> g y = true) ->
  In x l -> g x = true -> f x = false ->
  (List.length (filter f l) < List.length (filter g l))%nat.
Proof.
  intros Sub Hin Gx Fx.
  assert (Le : forall l', (List.length (filter f l') <= List.length (filter g l'))%nat).
  { induction l' as [|a l' IH]; [apply Nat.le_refl|].
    cbn [filter]. destruct (f a) eqn:Fa.
    - rewrite (Sub a Fa). cbn [List.length]. lia.
    - destruct (g a); cbn [List.length]; lia. }
  induction l as [|a l IH]; [contradiction|].
  cbn [filter]. destruct Hin as [->|Hin].
  - rewrite Fx, Gx. cbn [List.length]. specialize (Le l). lia.
  - specialize (IH Hin). destruct (f a) eqn:Fa.
    + rewrite (Sub a Fa). cbn [List.length]. lia.
    + destruct (g a); cbn [List.length]; lia.
Qed.

(** X8. Counting the changes: with a viewport height that is not negative,
    every change offset of the state is counted exactly once among the
    changes above the viewport, those in it (bounds included) and those
    below; no offset is both above and below; so the counts of the two
    hints never add up to more than the number of changes. *)
Theorem viewport_counts (this : Instance) :
  0 <= viewportHeight (state this) ->
  let above := changesAboveViewport (fst (render this)) in
  let below := changesBelowViewport (fst (render this)) in
  (List.length above + List.length (changesInViewport this) + List.length below
   = List.length (changeOffsets (state this)))%nat
  /\ (forall x, ~ (In x above /\ In x below))
  /\ (forall a b,
        hint_above (snd (render this)) = Some a ->
        hint_below (snd (render this)) = Some b ->
        (a + b <= List.length (changeOffsets (state this)))%nat).
Proof.
  intros Hh. cbn zeta.
  assert (D : forall x,
             JS.ltb x (scrollTop (state this)) = true ->
             JS.gtb x (scrollTop (state this) + viewportHeight (state this)) = false).
  { intros x L. apply ltb_lt in L. unfold JS.gtb. apply ltb_ge. lra. }
  pose proof (filter_three_way _ _ (changeOffsets (state this)) D) as C.
  split; [exact C|]. split.
  - intros x [Ha Hb]. apply changesAbove_In in Ha. apply changesBelow_In in Hb. lra.
  - cbn [render snd hint_above hint_below]. intros a b Ea Eb.
    destruct (_ && _) in Ea; [|discriminate]. destruct (_ && _) in Eb; [|discriminate].
    inversion Ea. inversion Eb. unfold changesInViewport in C. lia.
Qed.

Lemma viewport_counts_witness :
  0 <= viewportHeight (state window_100_300)
  /\ (List.length (changesAboveViewport (fst (render window_100_300)))
      + List.length (changesInViewport window_100_300)
      + List.length (changesBelowViewport (fst (render window_100_300))) = 6)%nat.
Proof.
  assert (H : 0 <= viewportHeight (state window_100_300)) by discriminate.
  split; [exact H|].
  destruct (viewport_counts window_100_300 H) as (C & _). exact C.
Defined.

Lemma half_split (q : Q) : q == q / 2 + q / 2.
Proof. field. Qed.

(** The two cases of [Math.max( 0, x - h / 2 )]. *)
Lemma center_cases (x h t : Q) :
  (if JS.ltb 0 (x - h / 2) then x - h / 2 else 0) = t ->
  (0 < x - h / 2 /\ t = x - h / 2) \/ (x - h / 2 <= 0 /\ t = 0).
Proof.
  destruct (JS.ltb 0 (x - h / 2)) eqn:E; intros H; subst t.
  - left. apply ltb_lt in E. now split.
  - right. apply ltb_ge in E. now split.
Qed.

Lemma scrolled_to_state (t : Q) (this : Instance) :
  state (scrolled_to t this)
  = {| changeOffsets := changeOffsets (state this);
       scrollTop := t;
       viewportHeight := viewportHeight (state this) |}.
Proof. reflexivity. Qed.

Lemma scrolled_to_above (t : Q) (this : Instance) (x : Q) :
  In x (changesAboveViewport (scrolled_to t this))
  <-> In x (changeOffsets (state this)) /\ x < t.
Proof.
  unfold scrolled_to, applied. rewrite changesAbove_In. reflexivity.
Qed.

Lemma scrolled_to_below (t : Q) (this : Instance) (x : Q) :
  In x (changesBelowViewport (scrolled_to t this))
  <-> In x (changeOffsets (state this)) /\ t + viewportHeight (state this) < x.
Proof.
  unfold scrolled_to, applied. rewrite changesBelow_In. reflexivity.
Qed.

(** X9. Centering shows the change: when [centerScrollingOnOffset] is
    called for a change offset that is not negative, in a viewport whose
    height is not negative, and the container then reports the requested
    position in a scroll event, that change is inside the viewport: it is
    counted neither above nor below. *)
Theorem centred_offset_is_visible (this : Instance) (x t : Q) :
  0 <= x ->
  0 <= viewportHeight (state this) ->
  In x (changeOffsets (state this)) ->
  centerScrollingOnOffset (Some x) true this
  = Done this [ScrollTo (JS.Fin 0) (JS.Fin t)] ->
  0 <= t
  /\ t <= x <= t + viewportHeight (state this)
  /\ In x (changesInViewport (scrolled_to t this))
  /\ ~ In x (changesAboveViewport (scrolled_to t this))
  /\ ~ In x (changesBelowViewport (scrolled_to t this)).
Proof.
  intros Hx Hh Hin H. unfold centerScrollingOnOffset in H. cbn [negb] in H.
  assert (E : (if JS.ltb 0 (x - viewportHeight (state this) / 2)
               then x - viewportHeight (state this) / 2 else 0) = t)
    by now inversion H.
  clear H. apply center_cases in E.
  pose proof (half_split (viewportHeight (state this))) as Hs.
  assert (Hh2 : 0 <= viewportHeight (state this) / 2).
  { unfold Qdiv. apply Qmult_le_0_compat; [assumption | discriminate]. }
  set (h := viewportHeight (state this)) in *. set (h2 := h / 2) in *.
  assert (B : 0 <= t /\ t <= x /\ x <= t + h).
  { destruct E as [[E1 ->]|[E1 ->]]; repeat split; lra. }
  destruct B as (B0 & B1 & B2).
  split; [exact B0|]. split; [now split|]. split; [|split].
  - unfold changesInViewport. rewrite scrolled_to_state. cbn [scrollTop viewportHeight
      changeOffsets]. apply filter_In. split; [exact Hin|].
    apply andb_true_iff. split; apply negb_true_iff.
    + apply ltb_ge. exact B1.
    + unfold JS.gtb. apply ltb_ge. exact B2.
  - intros Ha. apply scrolled_to_above in Ha. lra.
  - intros Hb. apply scrolled_to_below in Hb. fold h in Hb. lra.
Qed.

Lemma centred_offset_is_visible_witness :
  0 <= 900
  /\ In 900 (changeOffsets (state window_100_300))
  /\ ~ In 900 (changesBelowViewport (scrolled_to (1500 # 2) window_100_300)).
Proof.
  assert (Hx : 0 <= 900) by discriminate.
  assert (Hh : 0 <= viewportHeight (state window_100_300)) by discriminate.
  assert (Hin : In 900 (changeOffsets (state window_100_300))).
  { cbn. tauto. }
  split; [exact Hx|]. split; [exact Hin|].
  destruct (centred_offset_is_visible window_100_300 900 (1500 # 2) Hx Hh Hin eq_refl)
    as (_ & _ & _ & _ & Hb).
  exact Hb.
Defined.

(** X10. A click on the hint above makes progress: with a viewport height
    that is not negative and the offset picked not negative, [scrollAbove]
    asks for a position strictly above the current one, and once the
    container reports that position in a scroll event strictly fewer
    changes are above the viewport than before. *)
Theorem hint_above_makes_progress (this : Instance) (x t : Q) :
  0 <= x ->
  0 <= viewportHeight (state this) ->
  JS.last (changesAboveViewport (fst (render this))) = Some x ->
  scrollAbove (fst (render this))
  = Done (fst (render this))
      [ScrollTo (JS.Fin 0) (JS.Fin t); RecordTracksEvent scroll_hint_used "above"] ->
  t < scrollTop (state this)
  /\ (List.length (changesAboveViewport (scrolled_to t this))
      < List.length (changesAboveViewport (fst (render this))))%nat.
Proof.
  intros Hx Hh Hl H.
  unfold scrollAbove, seq, centerScrollingOnOffset in H. cbn [negb emit] in H.
  rewrite Hl in H.
  assert (E : (if JS.ltb 0 (x - viewportHeight (state this) / 2)
               then x - viewportHeight (state this) / 2 else 0) = t)
    by now inversion H.
  clear H. apply center_cases in E.
  pose proof (last_In _ _ Hl) as Hin. apply changesAbove_In in Hin.
  destruct Hin as [Hin Hlt].
  assert (Hh2 : 0 <= viewportHeight (state this) / 2).
  { unfold Qdiv. apply Qmult_le_0_compat; [assumption | discriminate]. }
  set (h2 := viewportHeight (state this) / 2) in *.
  assert (B : t < scrollTop (state this) /\ t <= x).
  { destruct E as [[E1 ->]|[E1 ->]]; split; lra. }
  destruct B as [B1 B2]. split; [exact B1|].
  unfold scrolled_to, applied. cbn [render fst changesAboveViewport with_changes state
    with_updateQueue with_state fold_left merge partialState scroll_update
    set_changeOffsets set_scrollTop set_viewportHeight changeOffsets scrollTop target
    JS.get DOM.scrollTop].
  apply filter_length_lt with (x := x).
  - intros y Hy. apply ltb_lt in Hy. apply ltb_lt. lra.
  - exact Hin.
  - now apply ltb_lt.
  - now apply ltb_ge.
Qed.

Lemma hint_above_makes_progress_witness :
  JS.last (changesAboveViewport (fst (render window_100_300))) = Some 50
  /\ (List.length (changesAboveViewport (scrolled_to 0 window_100_300)) < 2)%nat.
Proof.
  split; [reflexivity|].
  assert (Hx : 0 <= 50) by discriminate.
  assert (Hh : 0 <= viewportHeight (state window_100_300)) by discriminate.
  destruct (hint_above_makes_progress window_100_300 50 0 Hx Hh eq_refl eq_refl)
    as [_ L].
  exact L.
Defined.

(** X11. A click on the hint below makes progress: with a viewport height
    that is not negative, [scrollBelow] asks for a position strictly below
    the current one, and once the container reports that position in a
    scroll event strictly fewer changes are below the viewport than
    before. *)
Theorem hint_below_makes_progress (this : Instance) (x t : Q) :
  0 <= viewportHeight (state this) ->
  JS.first (changesBelowViewport (fst (render this))) = Some x ->
  scrollBelow (fst (render this))
  = Done (fst (render this))
      [ScrollTo (JS.Fin 0) (JS.Fin t); RecordTracksEvent scroll_hint_used "below"] ->
  scrollTop (state this) < t
  /\ (List.length (changesBelowViewport (scrolled_to t this))
      < List.length (changesBelowViewport (fst (render this))))%nat.
Proof.
  intros Hh Hf H.
  unfold scrollBelow, seq, centerScrollingOnOffset in H. cbn [negb emit] in H.
  rewrite Hf in H.
  assert (E : (if JS.ltb 0 (x - viewportHeight (state this) / 2)
               then x - viewportHeight (state this) / 2 else 0) = t)
    by now inversion H.
  clear H. apply center_cases in E.
  pose proof (first_In _ _ Hf) as Hin. apply changesBelow_In in Hin.
  destruct Hin as [Hin Hlt].
  pose proof (half_split (viewportHeight (state this))) as Hs.
  assert (Hh2 : 0 <= viewportHeight (state this) / 2).
  { unfold Qdiv. apply Qmult_le_0_compat; [assumption | discriminate]. }
  set (h := viewportHeight (state this)) in *. set (h2 := h / 2) in *.
  assert (B : scrollTop (state this) < t /\ x <= t + h).
  { destruct E as [[E1 ->]|[E1 ->]]; split; lra. }
  destruct B as [B1 B2]. split; [exact B1|].
  unfold scrolled_to, applied. cbn [render fst changesBelowViewport with_changes state
    with_updateQueue with_state fold_left merge partialState scroll_update
    set_changeOffsets set_scrollTop set_viewportHeight changeOffsets scrollTop
    viewportHeight target JS.get DOM.scrollTop].
  fold h.
  apply filter_length_lt with (x := x).
  - intros y Hy. apply gtb_lt in Hy. apply gtb_lt. lra.
  - exact Hin.
  - now apply gtb_lt.
  - unfold JS.gtb. now apply ltb_ge.
Qed.

Lemma hint_below_makes_progress_witness :
  JS.first (changesBelowViewport (fst (render window_100_300))) = Some 900
  /\ (List.length (changesBelowViewport (scrolled_to (1500 # 2) window_100_300)) < 1)%nat.
Proof.
  split; [reflexivity|].
  assert (Hh : 0 <= viewportHeight (state window_100_300)) by discriminate.
  destruct (hint_below_makes_progress window_100_300 900 (1500 # 2) Hh eq_refl eq_refl)
    as [_ L].
  exact L.
Defined.

(** ** The update loop, scroll events in a row *)

Lemma flush_terminates_witness :
  (exists held, node pending_7 = Some held)
  /\ exists this' log,
       React.flush 2 pending_7 = Done this' log /\ updateQueue this' = [].
Proof.
  assert (H : exists held, node pending_7 = Some held) by now exists sample_container.
  split; [exact H|]. exact (flush_terminates 0 pending_7 H).
Defined.

Lemma scroll_step (fuel : nat) (r l : revision_id) (e : ScrollEvent) (this : Instance) :
  at_rest r l this ->
  React.dispatch (S fuel) (React.Scroll e) this
  = Done (applied [scroll_update e] this) [].
Proof.
  intros Hr. pose proof (at_rest_settled _ _ _ Hr) as Hs.
  destruct Hr as (_ & _ & _ & _ & Hq). cbn [React.dispatch].
  rewrite (seq_quiet _ _ this (enqueue (scroll_update e) this)) by reflexivity.
  assert (Q : updateQueue (enqueue (scroll_update e) this) = [scroll_update e]).
  { unfold enqueue. cbn [updateQueue with_updateQueue]. now rewrite Hq. }
  rewrite flush_quiet.
  - now rewrite Q.
  - exact Hs.
  - rewrite Q. repeat constructor.
  - rewrite Q. discriminate.
Qed.

(** X13. Scroll events in a row: on a component at rest, any run of scroll
    events leaves exactly what its last event alone leaves (the state with
    that event's [scrollTop], the sets of [render] for it) and calls
    nothing outside; the earlier events of the run leave no trace. *)
Theorem scroll_events_coalesce
        (fuel : nat) (r l : revision_id) (this : Instance)
        (es : list ScrollEvent) (e : ScrollEvent) :
  at_rest r l this ->
  React.run (S fuel) (map React.Scroll (es ++ [e])) this
  = Done (applied [scroll_update e] this) []
  /\ React.run (S fuel) [React.Scroll e] this
     = Done (applied [scroll_update e] this) [].
Proof.
  intros Hr.
  assert (One : forall x, at_rest r l x ->
                React.run (S fuel) [React.Scroll e] x
                = Done (applied [scroll_update e] x) []).
  { intros x Hx. cbn [React.run].
    exact (seq_done _ _ _ _ _ _ _ (scroll_step fuel r l e x Hx) eq_refl). }
  split; [|now apply One].
  revert this Hr. induction es as [|e0 es IH]; intros this Hr; [now apply One|].
  cbn [app map React.run].
  rewrite (seq_quiet _ _ _ _ (scroll_step fuel r l e0 this Hr)).
  rewrite IH; [reflexivity|].
  destruct Hr as (Hp & Hl & Hrl & Hn & Hq).
  now apply at_rest_applied.
Qed.

Lemma scroll_events_coalesce_witness :
  at_rest (Id 7) (Id 7) showing_7
  /\ React.run 1
       (map React.Scroll
          ([ {| target := Some relaid_container |}; {| target := None |} ]
           ++ [ {| target := Some sample_container |} ]))
       showing_7
     = React.run 1 [React.Scroll {| target := Some sample_container |}] showing_7.
Proof.
  split; [exact showing_7_at_rest|].
  destruct (scroll_events_coalesce 0 (Id 7) (Id 7) showing_7
              [ {| target := Some relaid_container |}; {| target := None |} ]
              {| target := Some sample_container |} showing_7_at_rest) as [A B].
  now rewrite A, B.
Defined.

(** ** The notices of the current site *)

Section SiteNoticeProperties.

Variable hostname_of : string -> option string.
Variable domainManagementList : string -> string.

(** X14. When [SiteNotice.render] throws: without a site it returns the
    empty container, whatever the other props; with a site it throws (a
    [TypeError], reading [product_slug] off the missing plan) exactly when
    the Jetpack plugins setup is paused and the site has no plan, and
    otherwise returns its seven children, [null] ones included. *)
Theorem site_notice_render_throws (p : SiteNotice.Props) :
  (SiteNotice.site p = None ->
   SiteNotice.render hostname_of domainManagementList p = SiteNotice.Returned [])
  /\ (SiteNotice.render hostname_of domainManagementList p = SiteNotice.Thrown TypeError
      <-> exists s, SiteNotice.site p = Some s
                    /\ SiteNotice.pausedJetpackPluginsSetup p = true
                    /\ SiteNotice.plan s = None)
  /\ (forall children,
        SiteNotice.render hostname_of domainManagementList p = SiteNotice.Returned children ->
        SiteNotice.site p <> None -> List.length children = 7%nat).
Proof.
  unfold SiteNotice.render, SiteNotice.freeToPaidPlan30PercentOffNotice,
    SiteNotice.freeToPaidPlanNotice, SiteNotice.domainCreditNotice,
    SiteNotice.jetpackPluginsSetupNotice.
  destruct (SiteNotice.site p) as [s|] eqn:Es.
  2:{ split; [reflexivity|]. split.
      - split; [discriminate | intros (s & E & _); discriminate].
      - intros children _ H. now elim H. }
  split; [discriminate|].
  destruct (SiteNotice.isEligibleForSpringDiscount p),
    (SiteNotice.isEligibleForFreeToPaidUpsell p),
    (SiteNotice.hasDomainCredit p), (SiteNotice.canManageOptions p),
    (SiteNotice.pausedJetpackPluginsSetup p);
    cbn [negb orb SiteNotice.bind];
    try (split;
         [ split; [discriminate | intros (s' & _ & F & _); discriminate]
         | intros children H _; inversion H; reflexivity ]);
    (destruct (SiteNotice.plan s) as [pl|] eqn:Ep;
     [ destruct (String.eqb (SiteNotice.product_slug pl) "jetpack_free");
       (split;
        [ split; [discriminate
                 | intros (s' & E' & _ & F); inversion E'; subst; congruence]
        | intros children H _; inversion H; reflexivity ])
     | split;
       [ split; [intros _; now exists s | reflexivity]
       | intros children H; discriminate ] ]).
Qed.

(** X15. The upsell banner: with a site, the children [SiteNotice.render]
    returns hold no sidebar banner when the user is not eligible for the
    free-to-paid upsell and exactly one when eligible, never both variants;
    its link is [/plans/<slug>], with [?sale] appended exactly during the
    spring discount. *)
Theorem one_upsell_banner
        (p : SiteNotice.Props) (s : SiteNotice.Site)
        (children : list (option SiteNotice.element)) :
  SiteNotice.site p = Some s ->
  SiteNotice.render hostname_of domainManagementList p = SiteNotice.Returned children ->
  (SiteNotice.isEligibleForFreeToPaidUpsell p = false -> banners children = [])
  /\ (SiteNotice.isEligibleForFreeToPaidUpsell p = true ->
      exists ctaText text_,
        banners children
        = [SiteNotice.SidebarBanner "free-to-paid-sidebar" ctaText
             (if SiteNotice.isEligibleForSpringDiscount p
              then "/plans/" ++ SiteNotice.slug s ++ "?sale"
              else "/plans/" ++ SiteNotice.slug s)
             "info-outline" text_]).
Proof.
  intros Es. unfold SiteNotice.render, SiteNotice.freeToPaidPlan30PercentOffNotice,
    SiteNotice.freeToPaidPlanNotice, SiteNotice.domainCreditNotice,
    SiteNotice.jetpackPluginsSetupNotice, SiteNotice.getSiteRedirectNotice.
  rewrite Es.
  destruct (SiteNotice.isEligibleForSpringDiscount p),
    (SiteNotice.isEligibleForFreeToPaidUpsell p),
    (SiteNotice.hasDomainCredit p), (SiteNotice.canManageOptions p),
    (SiteNotice.pausedJetpackPluginsSetup p), (SiteNotice.isDomainOnly p),
    (SiteNotice.options s) as [[[|]]|];
    cbn [negb orb SiteNotice.bind SiteNotice.is_redirect];
    try (destruct (SiteNotice.plan s) as [pl|];
         [destruct (String.eqb (SiteNotice.product_slug pl) "jetpack_free")|]);
    cbn [SiteNotice.bind]; intros H; try discriminate H;
    inversion H; subst; cbn [banners flat_map app];
    (split; [intros; reflexivity || discriminate
            | intros; try discriminate; eexists; eexists; reflexivity]).
Qed.

End SiteNoticeProperties.

Lemma one_upsell_banner_witness :
  SiteNotice.site sample_notice_props = Some sample_site
  /\ exists children ctaText text_,
       SiteNotice.render (fun _ => None) (fun d => d) sample_notice_props
       = SiteNotice.Returned children
       /\ banners children
          = [SiteNotice.SidebarBanner "free-to-paid-sidebar" ctaText
               "/plans/example.blog?sale" "info-outline" text_].
Proof.
  split; [reflexivity|].
  destruct (one_upsell_banner (fun _ => None) (fun d => d) sample_notice_props
              sample_site _ eq_refl eq_refl) as [_ H].
  destruct (H eq_refl) as (ctaText & text_ & E).
  eexists. exists ctaText, text_. split; [reflexivity | exact E].
Defined.

(** ** The help courses page *)

Section CoursesProperties.

Variable state : Type.
Variable Course : Type.
Variable getCurrentUserId : state -> option Z.
Variable getUserPurchases : state -> option Z -> option (list Courses.Purchase).
Variable getHelpCourses : state -> option (list Course).
Variable isFetchingUserPurchases : state -> bool.
Variable hasLoadedUserPurchasesFromServer : state -> bool.
Variable planMatches : string -> Courses.PlanQuery -> bool.
Variable TYPE_BUSINESS GROUP_WPCOM : string.

(** X16. The course list gets courses: on the props [mapStateToProps]
    computes, [render] shows the placeholder exactly when purchases are
    being fetched, the courses are missing or the purchases have not been
    loaded from the server; whenever it shows the course list, the list is
    handed the courses of the state, which are present; and when the
    courses are missing the placeholder is shown and mounting dispatches
    the fetch. *)
Theorem course_list_gets_courses (st : state) :
  let p := Courses.mapStateToProps state Course getCurrentUserId getUserPurchases
             getHelpCourses isFetchingUserPurchases hasLoadedUserPurchasesFromServer
             planMatches TYPE_BUSINESS GROUP_WPCOM st in
  (Courses.list_or_placeholder Course (Courses.render Course p)
   = Courses.CourseListPlaceholder Course
   <-> isFetchingUserPurchases st = true
       \/ getHelpCourses st = None
       \/ hasLoadedUserPurchasesFromServer st = false)
  /\ (forall cs b,
        Courses.list_or_placeholder Course (Courses.render Course p)
        = Courses.CourseList Course cs b ->
        exists l, cs = Some l /\ getHelpCourses st = Some l
                  /\ b = Courses.isBusinessPlanUser Course p)
  /\ (getHelpCourses st = None ->
      Courses.list_or_placeholder Course (Courses.render Course p)
      = Courses.CourseListPlaceholder Course
      /\ Courses.componentWillMount Course p = [Courses.FetchCourses])
  /\ (getHelpCourses st <> None -> Courses.componentWillMount Course p = []).
Proof.
  cbn zeta. unfold Courses.render, Courses.mapStateToProps, Courses.componentWillMount,
    Courses.fetchCoursesIfNeeded.
  cbn [Courses.isLoading Courses.courses Courses.isBusinessPlanUser
       Courses.list_or_placeholder].
  destruct (isFetchingUserPurchases st), (getHelpCourses st) as [l|],
    (hasLoadedUserPurchasesFromServer st); cbn [Courses.found negb orb];
    (split; [split; [intros; tauto || discriminate | intros [?|[?|?]]; congruence]|]);
    (split; [intros cs b H; try discriminate H; inversion H; now exists l|]);
    (split; [intros; try discriminate; split; reflexivity
            | intros H; try reflexivity; now elim H]).
Qed.

(** X17. Who is a business plan user: [mapStateToProps] passes missing
    purchases on as they are (not as [false]); with purchases present the
    flag is a boolean, true exactly when some purchase of the user has a
    product slug that [planMatches] accepts for the WordPress.com business
    plans, so false for a user without purchases. *)
Theorem business_plan_user (st : state) :
  let p := Courses.mapStateToProps state Course getCurrentUserId getUserPurchases
             getHelpCourses isFetchingUserPurchases hasLoadedUserPurchasesFromServer
             planMatches TYPE_BUSINESS GROUP_WPCOM st in
  let purchases := getUserPurchases st (getCurrentUserId st) in
  (purchases = None -> Courses.isBusinessPlanUser Course p = None)
  /\ (forall l,
        purchases = Some l ->
        exists b,
          Courses.isBusinessPlanUser Course p = Some b
          /\ (b = true
              <-> exists purchase,
                    In purchase l
                    /\ planMatches (Courses.productSlug purchase)
                         {| Courses.type := TYPE_BUSINESS;
                            Courses.group := GROUP_WPCOM |} = true))
  /\ (purchases = Some [] -> Courses.isBusinessPlanUser Course p = Some false).
Proof.
  cbn zeta. unfold Courses.mapStateToProps. cbn [Courses.isBusinessPlanUser].
  split; [intros ->; reflexivity|]. split; [|intros ->; reflexivity].
  intros l ->. eexists. split; [reflexivity|].
  destruct (find _ l) as [purchase|] eqn:F; cbn [Courses.found].
  - apply find_some in F. split; [intros _; now exists purchase | reflexivity].
  - split; [discriminate|]. intros (purchase & Hin & Hm).
    apply (find_none _ _ F) in Hin. unfold Courses.isWPCOMBusinessPlan in Hin. congruence.
Qed.

End CoursesProperties.
